(** * chalk_talk_demo-neo: a verification model of the notebook pipeline

  The notebook builds and publishes a training image (a bash cell), stages
  a dataset in S3, trains with a SageMaker estimator, compiles the model
  with Neo and serves it.  Each code cell is embedded below under the name
  of the cell or of the variable it assigns.  The remote services the
  cells talk to are modelled as explicit state (the object store) or as an
  environment that decides the outcome of each call; every call is
  recorded in a log, so that statements about what a run does or does not
  attempt are statements about that log. *)

From Stdlib Require Import ZArith Ascii String List Lia Bool.
From stdpp Require Import base option list strings gmap.

Open Scope Z_scope.

(** ** Python string primitives used by the cells *)

Module Py.

(** [s.split(sep)] for a one-character separator: every occurrence of
    [sep] ends a segment, so the result is never empty. *)
Fixpoint split (sep : ascii) (s : string) : list string :=
  match s with
  | EmptyString => [EmptyString]
  | String c s' =>
      if Ascii.eqb c sep then EmptyString :: split sep s'
      else match split sep s' with
           | [] => [String c EmptyString]
           | seg :: segs => String c seg :: segs
           end
  end.

(** [sep.join(l)] *)
Fixpoint join (sep : string) (l : list string) : string :=
  match l with
  | [] => EmptyString
  | [x] => x
  | x :: rest => x +:+ sep +:+ join sep rest
  end.

(** The slice [l[:-1]]: everything but the last element; the empty list
    stays empty. *)
Definition slice_to_last {A} (l : list A) : list A :=
  take (length l - 1)%nat l.

(** [s.startswith(p)] *)
Definition startswith (s p : string) : bool := String.prefix p s.

(** [s.endswith(p)] *)
Fixpoint endswith (s p : string) : bool :=
  if String.eqb s p then true
  else match s with
       | EmptyString => false
       | String _ s' => endswith s' p
       end.

(** [c in s] for a character [c]. *)
Fixpoint contains (c : ascii) (s : string) : bool :=
  match s with
  | EmptyString => false
  | String d s' => Ascii.eqb d c || contains c s'
  end.

End Py.

(** ** Cell 34, first line: the compilation output path *)

Module Compile.

(** [output_path = '/'.join(estimator.output_path.split('/')[:-1])] *)
Definition output_path (estimator_output_path : string) : string :=
  Py.join "/" (Py.slice_to_last (Py.split "/" estimator_output_path)).

End Compile.

(** ** Cell 8: the bash script that builds and publishes the images *)

Module BuildPublish.

(** The commands the script runs.  Arguments are the words of the command
    line after parameter expansion, as the script writes them. *)
Inductive command :=
| Wget (url : string)
| AwsStsGetCallerIdentity
| AwsConfigureGetRegion
| AwsEcrDescribeRepositories (repository_name : string)
| AwsEcrCreateRepository (repository_name : string)
| AwsEcrGetLogin (registry_ids : option string) (region : string)
| RunOutput (line : string)
| Echo (msg : string)
| DockerBuild (t : string) (ARCH REGION : string)
| DockerTag (source target : string)
| DockerPush (name : string).

(** What a command answers: its exit status and what it prints. *)
Record reply := { status : Z; stdout : string }.

(** The machine and the remote services, seen from the script: the reply
    to a command may depend on every command run before it. *)
Definition world := list command → command → reply.

(** The script either goes on with a value or has left with [exit n]. *)
Inductive step (A : Type) :=
| Next (a : A)
| Exit (code : Z).
Arguments Next {A} a.
Arguments Exit {A} code.

(** A piece of script: from the commands run so far to a step and the
    commands run after it. *)
Definition sh (A : Type) : Type := world → list command → step A * list command.

#[global] Instance sh_ret : MRet sh := λ A a _ tr, (Next a, tr).
#[global] Instance sh_bind : MBind sh := λ A B f m w tr,
  match m w tr with
  | (Next a, tr') => f a w tr'
  | (Exit n, tr') => (Exit n, tr')
  end.

Definition run (c : command) : sh reply := λ w tr, (Next (w tr c), tr ++ [c]).
Definition exit {A} (n : Z) : sh A := λ _ tr, (Exit n, tr).

Definition dockerfile_url : string :=
  "https://raw.githubusercontent.com/aws-samples/amazon-sagemaker-container-with-fastai/master/Dockerfile".

Definition IMAGE : string := "sagemaker-fastai".
Definition FASTAI_VERSION : string := "1.0".
Definition PY_VERSION : string := "py36".

(** [TAG="${FASTAI_VERSION}-${arch}-${PY_VERSION}"] *)
Definition TAG (arch : string) : string :=
  FASTAI_VERSION +:+ "-" +:+ arch +:+ "-" +:+ PY_VERSION.

(** [FULLNAME="${account}.dkr.ecr.${region}.amazonaws.com/${IMAGE}:${TAG}"] *)
Definition FULLNAME (account region arch : string) : string :=
  account +:+ ".dkr.ecr." +:+ region +:+ ".amazonaws.com/" +:+ IMAGE +:+ ":" +:+ TAG arch.

(** [$(cmd)] in command position: [cmd] runs, and what it printed is run
    as a command in turn; when it printed nothing, nothing more runs and
    the status is that of [cmd]. *)
Definition run_output_of (c : command) : sh reply :=
  r ← run c;
  if String.eqb (stdout r) "" then mret r else run (RunOutput (stdout r)).

(** The body of the loop, for one architecture. *)
Definition build_variant (account region arch : string) : sh reply :=
  _ ← run (Echo ("Building image with arch=" +:+ arch +:+ ", region=" +:+ region));
  _ ← run (DockerBuild (IMAGE +:+ ":" +:+ TAG arch) arch region);
  _ ← run (DockerTag (IMAGE +:+ ":" +:+ TAG arch) (FULLNAME account region arch));
  run (DockerPush (FULLNAME account region arch)).

(** [for arch in ...; do body; done]: the status is that of the last
    command run, [last] when the list is empty. *)
Fixpoint for_each (archs : list string) (body : string → sh reply) (last : reply)
  : sh reply :=
  match archs with
  | [] => mret last
  | arch :: archs' => r ← body arch; for_each archs' body r
  end.

(** The script.  There is no [set -e]: only the test on the status of
    [aws sts get-caller-identity] leaves the script early. *)
Definition script : sh reply :=
  _ ← run (Wget dockerfile_url);
  id ← run AwsStsGetCallerIdentity;
  let account := stdout id in
  if negb (status id =? 0) then exit 255
  else
    r ← run AwsConfigureGetRegion;
    let region := if String.eqb (stdout r) "" then "us-west-2" else stdout r in
    d ← run (AwsEcrDescribeRepositories IMAGE);
    c ← (if negb (status d =? 0) then run (AwsEcrCreateRepository IMAGE) else mret d);
    _ ← run_output_of (AwsEcrGetLogin None region);
    l ← run_output_of (AwsEcrGetLogin (Some "520713654638") region);
    for_each ["gpu"; "cpu"] (build_variant account region) l.

(** One invocation of the cell: exit status and the commands run. *)
Definition invoke (w : world) : Z * list command :=
  match script w [] with
  | (Next r, tr) => (status r, tr)
  | (Exit n, tr) => (n, tr)
  end.

(** The names handed to [docker push], in order. *)
Definition pushed (tr : list command) : list string :=
  omap (λ c, match c with DockerPush n => Some n | _ => None end) tr.

(** The steps that touch the registry or docker: repository look-up and
    creation, registry login, build, tag and push. *)
Definition publishing (c : command) : bool :=
  match c with
  | AwsEcrDescribeRepositories _ | AwsEcrCreateRepository _
  | AwsEcrGetLogin _ _ | RunOutput _
  | DockerBuild _ _ _ | DockerTag _ _ | DockerPush _ => true
  | Wget _ | AwsStsGetCallerIdentity | AwsConfigureGetRegion | Echo _ => false
  end.

(** A world in which every command succeeds and prints [out c]. *)
Definition all_succeed (out : command → string) : world :=
  λ _ c, {| status := 0; stdout := out c |}.

(** A world in which the caller identity cannot be resolved. *)
Definition no_identity : world :=
  λ _ c, match c with
         | AwsStsGetCallerIdentity => {| status := 255; stdout := "" |}
         | _ => {| status := 0; stdout := "" |}
         end.

Definition sample_out (c : command) : string :=
  match c with
  | AwsStsGetCallerIdentity => "123456789012"
  | AwsConfigureGetRegion => "eu-west-1"
  | AwsEcrGetLogin _ _ => "docker login -u AWS -p secret https://registry"
  | _ => ""
  end.

End BuildPublish.

(** ** The object store behind [boto3.client('s3')] and [upload_data] *)

Module S3.

(** Objects by bucket and key; the body of an object is its bytes. *)
Abbreviation store := (gmap (string * string) string).

(** The objects of [Bucket] whose key starts with [Prefix]. *)
Definition under (s : store) (Bucket Prefix : string) : store :=
  filter (λ o, o.1.1 = Bucket ∧ Py.startswith o.1.2 Prefix = true) s.

(** At least one object of [Bucket] has a key that starts with [Prefix]. *)
Definition holds_under (s : store) (Bucket Prefix : string) : Prop :=
  ∃ key body, s !! (Bucket, key) = Some body ∧ Py.startswith key Prefix = true.

(** The answer of [list_objects_v2]; the cell reads ['KeyCount'] only. *)
Record response := { KeyCount : Z }.

(** [list_objects_v2(Bucket=..., Prefix=...)]: at most [MaxKeys] keys, 1000
    when the caller names none, are returned and counted. *)
Definition list_objects_v2 (s : store) (Bucket Prefix : string) : response :=
  {| KeyCount := Z.min (Z.of_nat (size (under s Bucket Prefix))) 1000 |}.

(** [Session.upload_data(path, bucket, key_prefix)] for a directory: every
    file below [path] is put under [key_prefix/<relative path>], and the
    URI of the prefix is returned.  [files] are the files below [path] by
    relative path. *)
Definition upload_data (s : store) (files : list (string * string))
    (bucket key_prefix : string) : store * string :=
  (foldl (λ st f, <[(bucket, key_prefix +:+ "/" +:+ f.1) := f.2]> st) s files,
   "s3://" +:+ bucket +:+ "/" +:+ key_prefix).

End S3.

(** ** The Python cells *)

Module Notebook.

(** A call returns or raises. *)
Inductive outcome (A : Type) :=
| Returned (a : A)
| Raised (exn : string).
Arguments Returned {A} a.
Arguments Raised {A} exn.

Record MetricDefinition := { Name : string; Regex : string }.

(** The arguments of [PyTorch(...)] in cell 26. *)
Record Estimator := {
  entry_point : string;
  role : string;
  train_instance_count : Z;
  train_instance_type : string;
  image_name : string;
  framework_version : string;
  hyperparameters : gmap string Z;
  metric_definitions : list MetricDefinition
}.

(** The calls a run records: those that leave the notebook process, and
    the opening of the fetched image. *)
Inductive call :=
| RemoveCredentials
| Session
| DefaultBucket
| GetExecutionRole
| BuildAndPublish
| DownloadDataset
| ListDataPath (path : string)
| DisplaySamples
| ListObjectsV2 (Bucket Prefix : string)
| UploadData (path bucket key_prefix : string)
| RegionName
| GetCallerIdentity
| NameFromImage (base : string)
| Fit (estimator : Estimator) (inputs job_name : string)
| TrainingJobAnalytics (training_job_name : string) (metric_names : list string)
| CompileModel (estimator : Estimator) (target_instance_family : string)
    (input_shape : list (string * list Z))
    (output_path framework framework_version : string)
| Deploy (name : string) (initial_instance_count : Z) (instance_type : string)
| RequestsGet (url : string)
| ImageOpen (data : string)
| Predict (data : string)
| DeleteEndpoint.

(** A call is invoked, and then completes or fails. *)
Inductive event :=
| Invoked (c : call)
| Completed (c : call)
| Failed (c : call) (exn : string).

(** What the notebook cannot decide: the outcome of each recorded call that
    is not to the object store.  Every such call site runs at most once in a run,
    so one outcome per site describes every behaviour of the services. *)
Record Env := {
  on_session : outcome unit;
  on_default_bucket : outcome string;
  on_execution_role : outcome string;
  on_bash : BuildPublish.world;
  on_download : Z;
  on_getcwd : string;
  data_files : list (string * string);
  on_display_samples : outcome unit;
  on_region_name : outcome string;
  on_caller_identity : outcome string;
  on_name_from_image : string;
  on_fit : outcome string;
  on_analytics : outcome unit;
  on_compile_model : outcome unit;
  on_deploy : outcome unit;
  on_requests_get : outcome string;
  on_image_open : outcome unit;
  on_predict : outcome string;
  on_delete_endpoint : outcome unit
}.

(** The state a run threads: the object store and the log of calls. *)
Record World := { s3 : S3.store; log : list event }.

Definition nb (A : Type) : Type := World → outcome A * World.

#[global] Instance nb_ret : MRet nb := λ A a w, (Returned a, w).
#[global] Instance nb_bind : MBind nb := λ A B f m w,
  match m w with
  | (Returned a, w') => f a w'
  | (Raised x, w') => (Raised x, w')
  end.

Definition raise {A} (x : string) : nb A := λ w, (Raised x, w).

Definition emit (e : event) : nb unit :=
  λ w, (Returned (), {| s3 := s3 w; log := log w ++ [e] |}).

(** A blocking call whose outcome the environment decides. *)
Definition remote {A} (c : call) (o : outcome A) : nb A :=
  _ ← emit (Invoked c);
  match o with
  | Returned a => _ ← emit (Completed c); mret a
  | Raised x => _ ← emit (Failed c x); raise x
  end.

(** A [%%bash] cell raises [CalledProcessError] when the script ends with
    a status other than 0. *)
Definition bash_cell (c : call) (exit_status : Z) : nb unit :=
  remote c (if exit_status =? 0 then Returned () else Raised "CalledProcessError").

(** [s3.list_objects_v2(Bucket=..., Prefix=...)] on the store of the run,
    for a store that answers the call.  A listing or an upload that raises
    ends the run at cell 20, before any later call is made; such runs are
    left out. *)
Definition list_objects_v2 (Bucket Prefix : string) : nb S3.response :=
  _ ← emit (Invoked (ListObjectsV2 Bucket Prefix));
  response ← (λ w, (Returned (S3.list_objects_v2 (s3 w) Bucket Prefix), w));
  _ ← emit (Completed (ListObjectsV2 Bucket Prefix));
  mret response.

Section Cells.

Variable env : Env.

(** [sagemaker_session.upload_data(path=..., bucket=..., key_prefix=...)]
    for a [path] that is a directory holding [data_files env], and a store
    that takes every object. *)
Definition upload_data (path bucket key_prefix : string) : nb string :=
  _ ← emit (Invoked (UploadData path bucket key_prefix));
  uri ← (λ w, let r := S3.upload_data (s3 w) (data_files env) bucket key_prefix in
              (Returned r.2, {| s3 := r.1; log := log w |}));
  _ ← emit (Completed (UploadData path bucket key_prefix));
  mret uri.

(** Cell 5: [! if [ -e ~/.aws/credentials ]; then rm ...; fi].  A [!]
    line never raises. *)
Definition cell_5 : nb unit := remote RemoveCredentials (Returned ()).

(** Cell 6: session, bucket, prefix and role. *)
Definition cell_6 : nb (string * string * string) :=
  _ ← remote Session (on_session env);
  bucket_name ← remote DefaultBucket (on_default_bucket env);
  let prefix := "sagemaker/DEMO-shirts-classification" in
  role ← remote GetExecutionRole (on_execution_role env);
  mret (bucket_name, prefix, role).

(** Cell 8: the build script. *)
Definition cell_8 : nb unit :=
  bash_cell BuildAndPublish (BuildPublish.invoke (on_bash env)).1.

(** Cell 12: download and unpack the dataset when [data/shirts] is absent. *)
Definition cell_12 : nb unit := bash_cell DownloadDataset (on_download env).

(** Cell 13: [DATA_PATH=f'{os.getcwd()}/data/shirts'] *)
Definition cell_13 : nb string := mret (on_getcwd env +:+ "/data/shirts").

(** Cell 14: [%ls {DATA_PATH}] *)
Definition cell_14 (DATA_PATH : string) : nb unit :=
  remote (ListDataPath DATA_PATH) (Returned ()).

(** Cell 17: pick and display one image of each class. *)
Definition cell_17 : nb unit := remote DisplaySamples (on_display_samples env).

(** Cell 20: stage the dataset. *)
Definition cell_20 (bucket_name prefix DATA_PATH : string) : nb string :=
  let key := prefix +:+ "/metal/" in
  response ← list_objects_v2 bucket_name key;
  if 0 <? S3.KeyCount response then
    mret ("s3://" +:+ bucket_name +:+ "/" +:+ prefix)
  else
    upload_data DATA_PATH bucket_name prefix.

(** Cell 23: region, account and image base name. *)
Definition cell_23 : nb (string * string * string) :=
  region ← remote RegionName (on_region_name env);
  account ← remote GetCallerIdentity (on_caller_identity env);
  let base_image_name := "sagemaker-fastai" in
  mret (region, account, base_image_name).

(** Cell 24 *)
Definition cell_24 (account region base_image_name : string) : string :=
  account +:+ ".dkr.ecr." +:+ region +:+ ".amazonaws.com/" +:+ base_image_name
    +:+ ":1.0-gpu-py36".

(** Cell 26 *)
Definition cell_26 (role image_name : string) : Estimator :=
  {| entry_point := "src/shirts-neo/train.py";
     role := role;
     train_instance_count := 1;
     train_instance_type := "ml.p3.2xlarge";
     image_name := image_name;
     framework_version := "1";
     hyperparameters := {[ "epochs" := 6; "batch-size" := 64 ]};
     metric_definitions :=
       [ {| Name := "valid:loss";
            Regex := "#quality_metric: host=\S+, epoch=\S+, valid_loss=(\S+)" |};
         {| Name := "train:loss";
            Regex := "#quality_metric: host=\S+, epoch=\S+, train_loss=(\S+)" |};
         {| Name := "valid:accuracy";
            Regex := "#quality_metric: host=\S+, epoch=\S+, accuracy=(\S+)" |} ] |}.

(** Cell 27 *)
Definition cell_27 (bucket_name prefix : string) : string :=
  "s3://" +:+ bucket_name +:+ "/" +:+ prefix.

(** Cell 28: name the job and train; [fit] blocks until the job has
    ended and raises unless it has completed.  The value is the
    estimator's [output_path] as [fit] leaves it. *)
Definition cell_28 (estimator : Estimator) (data_location : string)
  : nb (string * string) :=
  training_job_name ← remote (NameFromImage "fastai-shirts")
                        (Returned (on_name_from_image env));
  estimator_output_path ← remote (Fit estimator data_location training_job_name)
                            (on_fit env);
  mret (training_job_name, estimator_output_path).

(** Cell 31: fetch the metrics and plot them. *)
Definition cell_31 (training_job_name : string) : nb unit :=
  remote (TrainingJobAnalytics training_job_name
            ["train:loss"; "valid:loss"; "valid:accuracy"])
         (on_analytics env).

(** Cell 34: compile for [ml_c5]. *)
Definition cell_34 (estimator : Estimator) (estimator_output_path : string)
  : nb unit :=
  let output_path := Compile.output_path estimator_output_path in
  remote (CompileModel estimator "ml_c5" [("actual_input_1", [1; 3; 224; 224])]
            output_path "onnx" "1.3")
         (on_compile_model env).

(** Cell 35: [optimized_ic.name = 'deployed-shirts-classification'] *)
Definition cell_35 : string := "deployed-shirts-classification".

(** Cell 37 *)
Definition cell_37 (name : string) : nb unit :=
  remote (Deploy name 1 "ml.c5.4xlarge") (on_deploy env).

(** Cell 41: fetch the test image and open it.  [requests.get(url).content]
    is the body of whatever reply came; [Image.open(BytesIO(img_bytes))]
    raises on bytes that are no image. *)
Definition cell_41 : nb string :=
  let url := "https://i.ebayimg.com/images/g/qc0AAOSwBahVN~qm/s-l300.jpg" in
  img_bytes ← remote (RequestsGet url) (on_requests_get env);
  _ ← remote (ImageOpen img_bytes) (on_image_open env);
  mret img_bytes.

(** Cell 42 *)
Definition cell_42 (img_bytes : string) : nb string :=
  remote (Predict img_bytes) (on_predict env).

(** Cell 45 *)
Definition cell_45 : nb unit := remote DeleteEndpoint (on_delete_endpoint env).

(** The code cells from top to bottom; a cell that raises ends the run.
    Cells 3 and 4 import modules and define a display helper, cell 40
    holds comments only. *)
Definition cells : nb string :=
  _ ← cell_5;
  '(bucket_name, prefix, role) ← cell_6;
  _ ← cell_8;
  _ ← cell_12;
  DATA_PATH ← cell_13;
  _ ← cell_14 DATA_PATH;
  _ ← cell_17;
  data_location ← cell_20 bucket_name prefix DATA_PATH;
  '(region, account, base_image_name) ← cell_23;
  let image_name := cell_24 account region base_image_name in
  let estimator := cell_26 role image_name in
  let data_location := cell_27 bucket_name prefix in
  '(training_job_name, estimator_output_path) ← cell_28 estimator data_location;
  _ ← cell_31 training_job_name;
  _ ← cell_34 estimator estimator_output_path;
  let name := cell_35 in
  _ ← cell_37 name;
  img_bytes ← cell_41;
  response ← cell_42 img_bytes;
  _ ← cell_45;
  mret response.

End Cells.

(** A run of the notebook against an environment and an object store. *)
Definition run_all (env : Env) (store : S3.store) : outcome string * World :=
  cells env {| s3 := store; log := [] |}.

(** One invocation of Dataset Staging (cell 20) on a store: the location,
    the store afterwards and the calls made. *)
Definition stage (env : Env) (bucket_name prefix DATA_PATH : string)
    (store : S3.store) : outcome string * World :=
  cell_20 env bucket_name prefix DATA_PATH {| s3 := store; log := [] |}.

(** Dataset Staging invoked twice in a row: the second invocation finds
    the store as the first one leaves it. *)
Definition stage_twice (env : Env) (bucket_name prefix DATA_PATH : string)
    (store : S3.store) : (outcome string * World) * (outcome string * World) :=
  let first := stage env bucket_name prefix DATA_PATH store in
  (first, stage env bucket_name prefix DATA_PATH (s3 first.2)).

(** Whether a log records an upload. *)
Definition is_upload (e : event) : bool :=
  match e with Invoked (UploadData _ _ _) => true | _ => false end.
Definition uploads (l : list event) : bool := existsb is_upload l.

Definition is_compile_invocation (e : event) : bool :=
  match e with Invoked (CompileModel _ _ _ _ _ _) => true | _ => false end.

Definition is_fit_completion (e : event) : bool :=
  match e with Completed (Fit _ _ _) => true | _ => false end.

(** Reading a log from its start: no compilation is invoked before a
    training job has completed; [seen] tells whether one has. *)
Fixpoint compile_guarded (seen : bool) (l : list event) : bool :=
  match l with
  | [] => true
  | e :: l' =>
      (negb (is_compile_invocation e) || seen)
      && compile_guarded (seen || is_fit_completion e) l'
  end.

(** An environment in which every call succeeds. *)
Definition sunny : Env :=
  {| on_session := Returned ();
     on_default_bucket := Returned "sagemaker-eu-west-1-123456789012";
     on_execution_role := Returned "arn:aws:iam::123456789012:role/SageMakerRole";
     on_bash := BuildPublish.all_succeed BuildPublish.sample_out;
     on_download := 0;
     on_getcwd := "/home/ec2-user/SageMaker";
     data_files := [("metal/0001.jpg", "m1"); ("sport/0001.jpg", "s1")];
     on_display_samples := Returned ();
     on_region_name := Returned "eu-west-1";
     on_caller_identity := Returned "123456789012";
     on_name_from_image := "fastai-shirts-2018-11-27-20-21-19-215";
     on_fit := Returned "s3://sagemaker-eu-west-1-123456789012/";
     on_analytics := Returned ();
     on_compile_model := Returned ();
     on_deploy := Returned ();
     on_requests_get := Returned "jpeg";
     on_image_open := Returned ();
     on_predict := Returned "[0.1, 0.9]";
     on_delete_endpoint := Returned () |}.

(** The estimator of a [sunny] run. *)
Definition sunny_estimator : Estimator :=
  cell_26 "arn:aws:iam::123456789012:role/SageMakerRole"
    (cell_24 "123456789012" "eu-west-1" "sagemaker-fastai").

(** [sunny], but the training job fails. *)
Definition training_fails : Env :=
  {| on_session := on_session sunny;
     on_default_bucket := on_default_bucket sunny;
     on_execution_role := on_execution_role sunny;
     on_bash := on_bash sunny;
     on_download := on_download sunny;
     on_getcwd := on_getcwd sunny;
     data_files := data_files sunny;
     on_display_samples := on_display_samples sunny;
     on_region_name := on_region_name sunny;
     on_caller_identity := on_caller_identity sunny;
     on_name_from_image := on_name_from_image sunny;
     on_fit := Raised "UnexpectedStatusException";
     on_analytics := on_analytics sunny;
     on_compile_model := on_compile_model sunny;
     on_deploy := on_deploy sunny;
     on_requests_get := on_requests_get sunny;
     on_image_open := on_image_open sunny;
     on_predict := on_predict sunny;
     on_delete_endpoint := on_delete_endpoint sunny |}.

Definition sunny_bucket : string := "sagemaker-eu-west-1-123456789012".
Definition demo_prefix : string := "sagemaker/DEMO-shirts-classification".
Definition sunny_path : string := "/home/ec2-user/SageMaker/data/shirts".

(** A store that holds one image of the sport class and nothing else. *)
Definition sport_only : S3.store :=
  {[ (sunny_bucket, "sagemaker/DEMO-shirts-classification/sport/0001.jpg") := "s1" ]}.

(** A store that holds one image of the metal class. *)
Definition metal_staged : S3.store :=
  {[ (sunny_bucket, "sagemaker/DEMO-shirts-classification/metal/0001.jpg") := "m1" ]}.

(** [sunny] with a local dataset without any image of the metal class. *)
Definition no_metal_files : Env :=
  {| on_session := on_session sunny;
     on_default_bucket := on_default_bucket sunny;
     on_execution_role := on_execution_role sunny;
     on_bash := on_bash sunny;
     on_download := on_download sunny;
     on_getcwd := on_getcwd sunny;
     data_files := [("sport/0001.jpg", "s1")];
     on_display_samples := on_display_samples sunny;
     on_region_name := on_region_name sunny;
     on_caller_identity := on_caller_identity sunny;
     on_name_from_image := on_name_from_image sunny;
     on_fit := on_fit sunny;
     on_analytics := on_analytics sunny;
     on_compile_model := on_compile_model sunny;
     on_deploy := on_deploy sunny;
     on_requests_get := on_requests_get sunny;
     on_image_open := on_image_open sunny;
     on_predict := on_predict sunny;
     on_delete_endpoint := on_delete_endpoint sunny |}.

End Notebook.

(** ** Metric extraction: the regular expressions of [metric_definitions] *)

Module Re.

(** Character classes. *)
Inductive cls :=
| Chr (c : ascii)
| Any
| NonSpace
| Space
| Digit.

(** The patterns understood here: literals, [.], the escapes [\S], [\s],
    [\d] and escaped punctuation, the greedy quantifiers [+], [*], [?],
    and capturing groups, numbered by their opening parenthesis. *)
Inductive regex :=
| Eps
| One (k : cls)
| Seq (r1 r2 : regex)
| Star (r : regex)
| Plus (r : regex)
| Opt (r : regex)
| Group (n : nat) (r : regex).

(** [ \t\n\v\f\r] *)
Definition is_space (c : ascii) : bool :=
  let n := N_of_ascii c in ((n =? 32) || ((9 <=? n) && (n <=? 13)))%N.

Definition is_digit (c : ascii) : bool :=
  let n := N_of_ascii c in ((48 <=? n) && (n <=? 57))%N.

Definition is_letter (c : ascii) : bool :=
  let n := N_of_ascii c in
  (((65 <=? n) && (n <=? 90)) || ((97 <=? n) && (n <=? 122)))%N.

Definition accepts (k : cls) (c : ascii) : bool :=
  match k with
  | Chr d => Ascii.eqb c d
  | Any => negb (Ascii.eqb c "010")
  | NonSpace => negb (is_space c)
  | Space => is_space c
  | Digit => is_digit c
  end.

(** The character after a backslash. *)
Definition escape (c : ascii) : option cls :=
  if Ascii.eqb c "S" then Some NonSpace
  else if Ascii.eqb c "s" then Some Space
  else if Ascii.eqb c "d" then Some Digit
  else if is_letter c || is_digit c then None
  else Some (Chr c).

Definition is_quantifier (c : ascii) : bool :=
  Ascii.eqb c "+" || Ascii.eqb c "*" || Ascii.eqb c "?" || Ascii.eqb c "{".

(** Characters that open syntax not understood here when they stand where
    an atom is expected. *)
Definition is_special (c : ascii) : bool :=
  is_quantifier c || Ascii.eqb c "[" || Ascii.eqb c "]" || Ascii.eqb c "}"
  || Ascii.eqb c "|" || Ascii.eqb c "^" || Ascii.eqb c "$".

(** An optional greedy quantifier after an atom; a second quantifier
    character (lazy or possessive forms, counted repetition) is refused. *)
Definition quantify (atom : regex) (s : string) : option (regex * string) :=
  let single (q : regex) (rest : string) :=
    match rest with
    | String c _ => if is_quantifier c then None else Some (q, rest)
    | EmptyString => Some (q, rest)
    end in
  match s with
  | String c rest =>
      if Ascii.eqb c "+" then single (Plus atom) rest
      else if Ascii.eqb c "*" then single (Star atom) rest
      else if Ascii.eqb c "?" then single (Opt atom) rest
      else if Ascii.eqb c "{" then None
      else Some (atom, s)
  | EmptyString => Some (atom, s)
  end.

(** A sequence of quantified atoms up to the end of the pattern or to a
    closing parenthesis; [n] counts the groups opened so far. *)
Fixpoint parse_seq (fuel : nat) (n : nat) (s : string) : option (regex * nat * string) :=
  match fuel with
  | O => None
  | S fuel =>
      match s with
      | EmptyString => Some (Eps, n, s)
      | String c s' =>
          if Ascii.eqb c ")" then Some (Eps, n, s)
          else
            '(atom, n1, rest) ←
              (if Ascii.eqb c "(" then
                 '(body, n', rest) ← parse_seq fuel (S n) s';
                 match rest with
                 | String d rest' =>
                     if Ascii.eqb d ")" then Some (Group (S n) body, n', rest') else None
                 | EmptyString => None
                 end
               else if Ascii.eqb c "\" then
                 match s' with
                 | String e rest => k ← escape e; Some (One k, n, rest)
                 | EmptyString => None
                 end
               else if Ascii.eqb c "." then Some (One Any, n, s')
               else if is_special c then None
               else Some (One (Chr c), n, s'));
            '(q, rest) ← quantify atom rest;
            '(tail, n2, rest) ← parse_seq fuel n1 rest;
            Some (Seq q tail, n2, rest)
      end
  end.

(** [re.compile(pattern)]; [None] for a pattern outside the fragment. *)
Definition compile (pattern : string) : option regex :=
  match parse_seq (S (String.length pattern)) 0 pattern with
  | Some (r, _, EmptyString) => Some r
  | _ => None
  end.

(** The text of the groups matched so far, by group number. *)
Abbreviation groups := (gmap nat string).

(** What has been read of [s] when [rest] is left of it. *)
Definition consumed (s rest : string) : string :=
  String.substring 0 (String.length s - String.length rest) s.

(** Greedy iteration of [step]: one more round first, the continuation
    when that fails.  A round that reads nothing ends the iteration. *)
Fixpoint star (step : string → groups → (string → groups → option groups) → option groups)
    (fuel : nat) (s : string) (g : groups) (k : string → groups → option groups)
  : option groups :=
  match fuel with
  | O => k s g
  | S fuel' =>
      match step s g (λ s' g',
                if (String.length s' <? String.length s)%nat
                then star step fuel' s' g' k else None) with
      | Some r => Some r
      | None => k s g
      end
  end.

(** Backtracking match of [r] at the start of [s], then [k] on the rest. *)
Fixpoint exec (r : regex) (s : string) (g : groups)
    (k : string → groups → option groups) : option groups :=
  match r with
  | Eps => k s g
  | One c =>
      match s with
      | String a s' => if accepts c a then k s' g else None
      | EmptyString => None
      end
  | Seq r1 r2 => exec r1 s g (λ s' g', exec r2 s' g' k)
  | Star r1 => star (exec r1) (String.length s) s g k
  | Plus r1 => exec r1 s g (λ s' g', star (exec r1) (String.length s') s' g' k)
  | Opt r1 =>
      match exec r1 s g k with
      | Some res => Some res
      | None => k s g
      end
  | Group n r1 => exec r1 s g (λ s' g', k s' (<[n := consumed s s']> g'))
  end.

(** [re.search]: the first position from the left where [r] matches. *)
Fixpoint search (r : regex) (s : string) : option groups :=
  match exec r s ∅ (λ _ g, Some g) with
  | Some g => Some g
  | None =>
      match s with
      | EmptyString => None
      | String _ s' => search r s'
      end
  end.

(** The literal characters of [s], then [r]. *)
Fixpoint lits (s : string) (r : regex) : regex :=
  match s with
  | EmptyString => r
  | String c s' => Seq (One (Chr c)) (lits s' r)
  end.

(** What follows the literal head [#quality_metric: host=] in the rule
    for the validation accuracy. *)
Definition accuracy_tail : regex :=
  Seq (Plus (One NonSpace))
    (lits ", epoch="
       (Seq (Plus (One NonSpace))
          (lits ", accuracy=" (Seq (Group 1 (Seq (Plus (One NonSpace)) Eps)) Eps)))).

(** No character of [s] is white space. *)
Fixpoint no_space (s : string) : bool :=
  match s with
  | EmptyString => true
  | String c s' => negb (is_space c) && no_space s'
  end.

End Re.

Module Metrics.

(** A row of the metrics table: metric name and the captured text. *)
Definition row : Type := string * string.

(** A rule applied to one log line: when the pattern is found in the line,
    one row with the text of group 1. *)
Definition extract (d : Notebook.MetricDefinition) (line : string) : list row :=
  match Re.compile (Notebook.Regex d) with
  | Some r =>
      match Re.search r line with
      | Some g =>
          match g !! 1%nat with
          | Some v => [(Notebook.Name d, v)]
          | None => []
          end
      | None => []
      end
  | None => []
  end.

(** The rule of an estimator with a given name. *)
Definition rule (e : Notebook.Estimator) (name : string) : option Notebook.MetricDefinition :=
  find (λ d, bool_decide (Notebook.Name d = name)) (Notebook.metric_definitions e).

(** The rule [name] of the training job applied to a log line. *)
Definition rows (e : Notebook.Estimator) (name line : string) : list row :=
  match rule e name with
  | Some d => extract d line
  | None => []
  end.

End Metrics.


(** ** Views of the build script's trace *)

Module BuildTrace.
Import BuildPublish.

(** The account the script works with: what the identity query printed. *)
Definition account_of (w : world) : string :=
  stdout (w [Wget dockerfile_url] AwsStsGetCallerIdentity).

(** The region the script works with: what [aws configure get region]
    printed, [us-west-2] when it printed nothing. *)
Definition region_of (w : world) : string :=
  let r := w [Wget dockerfile_url; AwsStsGetCallerIdentity] AwsConfigureGetRegion in
  if String.eqb (stdout r) "" then "us-west-2" else stdout r.

(** What [aws ecr describe-repositories] answers in a run of the script. *)
Definition describe_reply (w : world) : reply :=
  w [Wget dockerfile_url; AwsStsGetCallerIdentity; AwsConfigureGetRegion]
    (AwsEcrDescribeRepositories IMAGE).

(** The commands of the loop that work on an image: [docker build],
    [docker tag] and [docker push].  The [docker login] line that a
    [$(aws ecr get-login ...)] runs is a [RunOutput] and not one of them. *)
Definition is_image_step (c : command) : bool :=
  match c with
  | DockerBuild _ _ _ | DockerTag _ _ | DockerPush _ => true
  | _ => false
  end.

(** The line a [$(...)] ran is a [docker login] command. *)
Definition is_docker_login (c : command) : Prop :=
  match c with
  | RunOutput line => Py.startswith line "docker login " = true
  | _ => True
  end.

Definition is_login (c : command) : bool :=
  match c with AwsEcrGetLogin _ _ => true | _ => false end.

Definition is_creation (c : command) : bool :=
  match c with AwsEcrCreateRepository _ => true | _ => false end.

(** The builds, tags and pushes of a trace, in order. *)
Definition image_steps (tr : list command) : list command := List.filter is_image_step tr.

(** The [aws ecr get-login] commands of a trace, in order. *)
Definition logins (tr : list command) : list command := List.filter is_login tr.

(** The [aws ecr create-repository] commands of a trace. *)
Definition creations (tr : list command) : list command := List.filter is_creation tr.

(** Build, tag and push of one architecture, as the loop body runs them. *)
Definition variant (account region arch : string) : list command :=
  [DockerBuild (IMAGE +:+ ":" +:+ TAG arch) arch region;
   DockerTag (IMAGE +:+ ":" +:+ TAG arch) (FULLNAME account region arch);
   DockerPush (FULLNAME account region arch)].

(** One round of the loop: the message, then build, tag and push. *)
Definition round (account region arch : string) : list command :=
  Echo ("Building image with arch=" +:+ arch +:+ ", region=" +:+ region)
  :: variant account region arch.

(** [aws ecr get-login] prints nothing, or the [docker login] command line
    it is made to print: what [$(...)] then runs is that command, and no
    builtin of the shell. *)
Definition prints_docker_login (w : world) : Prop :=
  ∀ tr registry_ids region,
    let out := stdout (w tr (AwsEcrGetLogin registry_ids region)) in
    out = "" ∨ Py.startswith out "docker login " = true.

(** The world of the examples: every command succeeds. *)
Definition sample : world := all_succeed sample_out.

(** A world in which the identity is resolved and the build and the push
    of the gpu image fail. *)
Definition gpu_fails : world :=
  λ _ c, match c with
         | DockerBuild _ arch _ =>
             {| status := if String.eqb arch "gpu" then 1 else 0; stdout := "" |}
         | DockerPush n =>
             {| status := if Py.endswith n "gpu-py36" then 1 else 0; stdout := "" |}
         | _ => {| status := 0; stdout := sample_out c |}
         end.

(** A world in which only the last push fails. *)
Definition cpu_push_fails : world :=
  λ _ c, match c with
         | DockerPush n =>
             {| status := if Py.endswith n "cpu-py36" then 1 else 0; stdout := "" |}
         | _ => {| status := 0; stdout := sample_out c |}
         end.

(** A world without a repository and without a configured region. *)
Definition fresh_account : world :=
  λ _ c, match c with
         | AwsEcrDescribeRepositories _ => {| status := 255; stdout := "" |}
         | AwsConfigureGetRegion => {| status := 1; stdout := "" |}
         | _ => {| status := 0; stdout := sample_out c |}
         end.

End BuildTrace.

(** ** Cell 12: the bash script that fetches the dataset *)

Module Download.

(** The local files the script deals with: the directories and the plain
    files that exist, by path relative to the working directory. *)
Record local := { dirs : gset string; files : gset string }.

Inductive command :=
| TestNoDir (path : string)
| MkdirP (path : string)
| WgetQ (url : string)
| TarZxf (archive directory : string)
| Rm (path : string).

(** What the script cannot decide: whether the directory can be made, how
    the download ends and whether it leaves the archive behind, whether
    [tar] reads the archive to its end, and the members [tar] writes: all
    of them from a sound archive, those before the damage from one that is
    cut short. *)
Record Env := {
  mkdir_ok : bool;
  wget_status : Z;
  wget_saves : bool;
  archive_ok : bool;
  unpacked : list string
}.

Definition url : string :=
  "https://s3-eu-west-1.amazonaws.com/sagemaker-934676248949-eu-west-1/data/shirts_imgs.tar.gz".
Definition archive : string := "shirts_imgs.tar.gz".
Definition directory : string := "data/shirts".

(** [[ ! -d path ]] *)
Definition test_no_dir (path : string) (l : local) : Z :=
  if decide (path ∈ dirs l) then 1 else 0.

(** [mkdir -p path] *)
Definition mkdir_p (env : Env) (path : string) (l : local) : Z * local :=
  if mkdir_ok env then (0, {| dirs := {[path]} ∪ dirs l; files := files l |})
  else (1, l).

(** [wget -q url]: the file is saved under the last segment of the URL,
    with [.1] added when a file of that name is there already. *)
Definition wget_q (env : Env) (l : local) : Z * local :=
  (wget_status env,
   if wget_saves env then
     let name := if decide (archive ∈ files l) then archive +:+ ".1" else archive in
     {| dirs := dirs l; files := {[name]} ∪ files l |}
   else l).

(** [tar zxf archive -C directory]: without the archive or the directory
    it ends with status 2 and writes nothing.  Else the members it writes
    land below the directory, and its status is 2 when the archive is
    damaged, after the members before the damage were written.  The
    directories it makes below [directory] are left out of [dirs]. *)
Definition tar_zxf (env : Env) (l : local) : Z * local :=
  if decide (archive ∈ files l ∧ directory ∈ dirs l) then
    (if archive_ok env then 0 else 2,
     {| dirs := dirs l;
        files := list_to_set ((λ m, directory +:+ "/" +:+ m) <$> unpacked env) ∪ files l |})
  else (2, l).

(** [rm path] *)
Definition rm (path : string) (l : local) : Z * local :=
  if decide (path ∈ files l) then (0, {| dirs := dirs l; files := files l ∖ {[path]} |})
  else (1, l).

(** The script: exit status, the files afterwards and the commands run.
    There is no [set -e]; an [if] whose test fails and that has no [else]
    ends with status 0. *)
Definition script (env : Env) (l : local) : Z * local * list command :=
  if test_no_dir directory l =? 0 then
    let '(_, l1) := mkdir_p env directory l in
    let '(_, l2) := wget_q env l1 in
    let '(_, l3) := tar_zxf env l2 in
    let '(s4, l4) := rm archive l3 in
    (s4, l4, [TestNoDir directory; MkdirP directory; WgetQ url;
              TarZxf archive directory; Rm archive])
  else (0, l, [TestNoDir directory]).

Definition empty : local := {| dirs := ∅; files := ∅ |}.

(** The download fails and leaves nothing behind. *)
Definition offline : Env :=
  {| mkdir_ok := true; wget_status := 4; wget_saves := false;
     archive_ok := true; unpacked := ["metal/0001.jpg"; "sport/0001.jpg"] |}.

(** The download succeeds and the archive is cut short after its first
    member. *)
Definition damaged : Env :=
  {| mkdir_ok := true; wget_status := 0; wget_saves := true;
     archive_ok := false; unpacked := ["metal/0001.jpg"] |}.

Definition online : Env :=
  {| mkdir_ok := true; wget_status := 0; wget_saves := true;
     archive_ok := true; unpacked := ["metal/0001.jpg"; "sport/0001.jpg"] |}.

End Download.

(** ** Cell 4: [display_images] *)

From Stdlib Require DecimalString.

Module Display.

(** The [width] argument: an [int], taken as pixels, or a string. *)
Inductive width_arg :=
| Int (n : Z)
| Str (s : string).

(** ["{}".format(n)] for an [int]. *)
Definition format_int (n : Z) : string :=
  DecimalString.NilZero.string_of_int (Z.to_int n).

(** ["<th>{}</th>".format(h)] *)
Definition th (h : string) : string := "<th>" +:+ h +:+ "</th>".

(** ["<td><img src='{}' /></td>".format(image)] *)
Definition td (image : string) : string := "<td><img src='" +:+ image +:+ "' /></td>".

(** The fragments [display_images] collects in [html], in order. *)
Definition fragments (images : list string) (header : option (list string))
    (width : width_arg) : list string :=
  let width := match width with
               | Int n => format_int n +:+ "px"
               | Str s => s
               end in
  let html := ["<table style='width:" +:+ width +:+ "'><tr>"] in
  let html := match header with
              | Some header => html ++ ((th <$> header) ++ ["</tr><tr>"])
              | None => html
              end in
  let html := foldl (λ html image, html ++ [td image]) html images in
  html ++ ["</tr></table>"].

(** The markup [display_images] hands to [display(HTML(...))]:
    [''.join(html)]. *)
Definition display_images (images : list string) (header : option (list string))
    (width : width_arg) : string :=
  Py.join "" (fragments images header width).

(** The defaults of the signature: [header=None, width="100%"]. *)
Definition display_images_default (images : list string) : string :=
  display_images images None (Str "100%").

(** Cell 17, the call: two images under the headings Metal and Sport. *)
Definition cell_17_markup (metal_img sport_img : string) : string :=
  display_images [metal_img; sport_img] (Some ["Metal"; "Sport"]) (Str "60%").

(** The strings of a list one after the other. *)
Fixpoint concat (l : list string) : string :=
  match l with
  | [] => ""
  | x :: l' => x +:+ concat l'
  end.

End Display.

(** ** What [fit] sends: the hyperparameters of the training request *)

(** The notebook hands its hyperparameters to the [PyTorch] estimator of
    the SageMaker Python SDK, a framework estimator.  When [fit] prepares the
    job, [Framework._prepare_for_training] stages the code of the entry
    point and writes six entries of its own into the same mapping, and
    [Framework.hyperparameters] gives the request every value as its JSON
    text. *)
Module Framework.

Definition DIR_PARAM_NAME : string := "sagemaker_submit_directory".
Definition SCRIPT_PARAM_NAME : string := "sagemaker_program".
Definition CLOUDWATCH_METRICS_PARAM_NAME : string := "sagemaker_enable_cloudwatch_metrics".
Definition CONTAINER_LOG_LEVEL_PARAM_NAME : string := "sagemaker_container_log_level".
Definition JOB_NAME_PARAM_NAME : string := "sagemaker_job_name".
Definition SAGEMAKER_REGION_PARAM_NAME : string := "sagemaker_region".

(** The keys the SDK writes. *)
Definition added : gset string :=
  {[ DIR_PARAM_NAME; SCRIPT_PARAM_NAME; CLOUDWATCH_METRICS_PARAM_NAME;
     CONTAINER_LOG_LEVEL_PARAM_NAME; JOB_NAME_PARAM_NAME; SAGEMAKER_REGION_PARAM_NAME ]}.

(** [json.dumps(n)] for an [int]. *)
Definition json_int (n : Z) : string :=
  DecimalString.NilZero.string_of_int (Z.to_int n).

(** [json.dumps(s)] for a [str] without a character that JSON escapes: the
    text between double quotes. *)
Definition json_str (s : string) : string :=
  String "034"%char (s +:+ String "034"%char "").

(** [os.path.basename(path)] *)
Definition basename (path : string) : string := List.last (Py.split "/" path) "".

(** The hyperparameters of the request: the mapping of the constructor,
    then the directory the code was staged under, the script of the entry
    point, the two defaults of the estimator ([enable_cloudwatch_metrics]
    is [False], [container_log_level] is [logging.INFO], 20), the job name
    and the region of the session. *)
Definition hyperparameters (estimator : Notebook.Estimator)
    (code_dir job_name region : string) : gmap string string :=
  <[SAGEMAKER_REGION_PARAM_NAME := json_str region]>
    (<[JOB_NAME_PARAM_NAME := json_str job_name]>
       (<[CONTAINER_LOG_LEVEL_PARAM_NAME := json_int 20]>
          (<[CLOUDWATCH_METRICS_PARAM_NAME := "false"]>
             (<[SCRIPT_PARAM_NAME := json_str (basename (Notebook.entry_point estimator))]>
                (<[DIR_PARAM_NAME := json_str code_dir]>
                   (json_int <$> Notebook.hyperparameters estimator)))))).

(** The request of a [sunny] run. *)
Definition sunny_request : gmap string string :=
  hyperparameters Notebook.sunny_estimator
    "s3://sagemaker-eu-west-1-123456789012/fastai-shirts-2018-11-27-20-21-19-215/source/sourcedir.tar.gz"
    "fastai-shirts-2018-11-27-20-21-19-215" "eu-west-1".

End Framework.

(** ** Views of a run's log *)

From Stdlib Require Import Sorted.

Module Pipeline.
Import Notebook.

(** The calls a log records as invoked, in order. *)
Definition invocations (l : list event) : list call :=
  omap (λ e, match e with Invoked c => Some c | _ => None end) l.

(** The place of a call in the notebook, from top to bottom. *)
Definition rank (c : call) : nat :=
  match c with
  | RemoveCredentials => 0
  | Session => 1
  | DefaultBucket => 2
  | GetExecutionRole => 3
  | BuildAndPublish => 4
  | DownloadDataset => 5
  | ListDataPath _ => 6
  | DisplaySamples => 7
  | ListObjectsV2 _ _ => 8
  | UploadData _ _ _ => 9
  | RegionName => 10
  | GetCallerIdentity => 11
  | NameFromImage _ => 12
  | Fit _ _ _ => 13
  | TrainingJobAnalytics _ _ => 14
  | CompileModel _ _ _ _ _ _ => 15
  | Deploy _ _ _ => 16
  | RequestsGet _ => 17
  | ImageOpen _ => 18
  | Predict _ => 19
  | DeleteEndpoint => 20
  end.

(** Each number is below the next. *)
Fixpoint increasing (l : list nat) : bool :=
  match l with
  | a :: l' =>
      match l' with
      | b :: _ => (a <? b)%nat && increasing l'
      | [] => true
      end
  | [] => true
  end.

(** A log of blocking calls made one at a time: each invocation is
    answered before the next call, and a failure is the last event. *)
Inductive sequential : list event → Prop :=
| sequential_end : sequential []
| sequential_completed c l : sequential l → sequential (Invoked c :: Completed c :: l)
| sequential_failed c exn : sequential [Invoked c; Failed c exn].

Definition is_failure (e : event) : bool :=
  match e with Failed _ _ => true | _ => false end.

Definition is_deploy_completion (e : event) : bool :=
  match e with Completed (Deploy _ _ _) => true | _ => false end.

Definition is_delete_invocation (e : event) : bool :=
  match e with Invoked DeleteEndpoint => true | _ => false end.

(** Every call whose outcome the environment decides returns, the
    prediction apart, and both bash cells end with status 0. *)
Definition all_return (env : Env) : Prop :=
  (∃ a, on_session env = Returned a) ∧
  (∃ a, on_default_bucket env = Returned a) ∧
  (∃ a, on_execution_role env = Returned a) ∧
  (BuildPublish.invoke (on_bash env)).1 = 0 ∧
  on_download env = 0 ∧
  (∃ a, on_display_samples env = Returned a) ∧
  (∃ a, on_region_name env = Returned a) ∧
  (∃ a, on_caller_identity env = Returned a) ∧
  (∃ a, on_fit env = Returned a) ∧
  (∃ a, on_analytics env = Returned a) ∧
  (∃ a, on_compile_model env = Returned a) ∧
  (∃ a, on_deploy env = Returned a) ∧
  (∃ a, on_requests_get env = Returned a) ∧
  (∃ a, on_image_open env = Returned a) ∧
  (∃ a, on_delete_endpoint env = Returned a).

(** An environment that differs from [base] in the build world and in the
    outcome of the prediction. *)
Definition variation (base : Env) (bash : BuildPublish.world) (predict : outcome string)
  : Env :=
  {| on_session := on_session base;
     on_default_bucket := on_default_bucket base;
     on_execution_role := on_execution_role base;
     on_bash := bash;
     on_download := on_download base;
     on_getcwd := on_getcwd base;
     data_files := data_files base;
     on_display_samples := on_display_samples base;
     on_region_name := on_region_name base;
     on_caller_identity := on_caller_identity base;
     on_name_from_image := on_name_from_image base;
     on_fit := on_fit base;
     on_analytics := on_analytics base;
     on_compile_model := on_compile_model base;
     on_deploy := on_deploy base;
     on_requests_get := on_requests_get base;
     on_image_open := on_image_open base;
     on_predict := predict;
     on_delete_endpoint := on_delete_endpoint base |}.

(** The prediction fails on a deployed endpoint. *)
Definition prediction_fails : Env :=
  variation sunny (on_bash sunny) (Raised "ModelError").

(** The build and the push of the gpu image fail, the rest succeeds. *)
Definition gpu_image_missing : Env :=
  variation sunny BuildTrace.gpu_fails (on_predict sunny).

End Pipeline.

(** ** The three metric rules on the lines of the training log *)

Module MetricRules.
Import Re.

(** The head all three patterns start with. *)
Definition head : string := "#quality_metric: host=".

(** What follows the head in the pattern that captures the value of [key]:
    [\S+, epoch=\S+, key=(\S+)]. *)
Definition tail (key : string) : regex :=
  Seq (Plus (One NonSpace))
    (lits ", epoch="
       (Seq (Plus (One NonSpace))
          (lits (", " +:+ key +:+ "=") (Seq (Group 1 (Seq (Plus (One NonSpace)) Eps)) Eps)))).

(** The metric names of cell 26 with the key each pattern looks for. *)
Definition keys : list (string * string) :=
  [("valid:loss", "valid_loss"); ("train:loss", "train_loss"); ("valid:accuracy", "accuracy")].

(** A line as the patterns expect it. *)
Definition quality_line (host epoch key value : string) : string :=
  head +:+ host +:+ ", epoch=" +:+ epoch +:+ ", " +:+ key +:+ "=" +:+ value.

(** A token ends here: nothing follows, or white space does. *)
Definition token_end (rest : string) : bool :=
  match rest with
  | EmptyString => true
  | String c _ => is_space c
  end.

End MetricRules.
(** * Properties *)

(** ** Facts about the string primitives *)

Lemma append_cons (c : ascii) (s t : string) : String c s +:+ t = String c (s +:+ t).
Proof. reflexivity. Qed.

Lemma append_empty_l (s : string) : EmptyString +:+ s = s.
Proof. reflexivity. Qed.

Lemma append_assoc (a b c : string) : (a +:+ b) +:+ c = a +:+ b +:+ c.
Proof.
  induction a as [|x a IH]; [done |].
  by rewrite !append_cons, IH.
Qed.

Lemma join_cons (sep x : string) (l : list string) :
  l ≠ [] → Py.join sep (x :: l) = x +:+ sep +:+ Py.join sep l.
Proof. destruct l; [done | reflexivity]. Qed.

Lemma join_snoc (sep last : string) (init : list string) :
  init ≠ [] →
  Py.join sep (init ++ [last]) = Py.join sep init +:+ sep +:+ last.
Proof.
  induction init as [|x init IH]; [done | intros _].
  destruct init as [|y init]; [reflexivity |].
  change ((x :: y :: init) ++ [last]) with (x :: ((y :: init) ++ [last])).
  rewrite join_cons by done.
  rewrite IH by done.
  rewrite (join_cons sep x (y :: init)) by done.
  by rewrite !append_assoc.
Qed.

Lemma slice_to_last_snoc {A} (init : list A) (x : A) :
  Py.slice_to_last (init ++ [x]) = init.
Proof.
  unfold Py.slice_to_last. rewrite length_app. simpl.
  replace (length init + 1 - 1)%nat with (length init) by lia.
  by rewrite take_app_length.
Qed.

(** [split] always returns a last segment, free of the separator, and
    [join] undoes [split]. *)
Lemma split_snoc (sep : ascii) (s : string) :
  ∃ init last,
    Py.split sep s = init ++ [last] ∧
    Py.contains sep last = false ∧
    Py.join (String sep EmptyString) (init ++ [last]) = s.
Proof.
  induction s as [|c s (init & last & Hsplit & Hlast & Hjoin)].
  - by exists [], EmptyString.
  - simpl. destruct (Ascii.eqb c sep) eqn:Hc.
    + apply Ascii.eqb_eq in Hc as ->.
      exists (EmptyString :: init), last. rewrite Hsplit.
      split_and!; [done | done |].
      change ((EmptyString :: init) ++ [last]) with (EmptyString :: (init ++ [last])).
      rewrite join_cons by (by destruct init). by rewrite Hjoin.
    + rewrite Hsplit. destruct init as [|h t]; simpl.
      * exists [], (String c last). simpl in *. rewrite Hc, Hlast.
        split_and!; [done | done | by rewrite Hjoin].
      * exists (String c h :: t), last.
        split_and!; [done | done |].
        change ((String c h :: t) ++ [last]) with (String c h :: (t ++ [last])).
        rewrite join_cons by (by destruct t).
        change ((h :: t) ++ [last]) with (h :: (t ++ [last])) in Hjoin.
        rewrite join_cons in Hjoin by (by destruct t).
        by rewrite <- Hjoin.
Qed.

Example output_path_default_bucket :
  Compile.output_path "s3://sagemaker-us-west-2-123456789012/" =
  "s3://sagemaker-us-west-2-123456789012".
Proof. reflexivity. Qed.

Example output_path_nested :
  Compile.output_path "s3://bucket/jobs/run-001/output" = "s3://bucket/jobs/run-001".
Proof. reflexivity. Qed.

Example output_path_no_separator : Compile.output_path "model" = EmptyString.
Proof. reflexivity. Qed.

(** C8. For every artifact path, the compilation output path is that path
    with its final '/'-separated segment removed: either the path is the
    output path, a '/' and a last segment free of '/', or the path has no
    '/' at all and the output path is empty. *)
Theorem output_path_is_parent (artifact_path : string) :
  ∃ last : string,
    Py.contains "/" last = false ∧
    (artifact_path = Compile.output_path artifact_path +:+ "/" +:+ last ∨
     (artifact_path = last ∧ Compile.output_path artifact_path = EmptyString)).
Proof.
  destruct (split_snoc "/" artifact_path) as (init & last & Hsplit & Hlast & Hjoin).
  exists last. split; [done |].
  unfold Compile.output_path. rewrite Hsplit, slice_to_last_snoc.
  destruct init as [|h t].
  - right. by rewrite <- Hjoin.
  - left. rewrite <- Hjoin at 1. by rewrite join_snoc.
Qed.

(** ** The build script *)

Example invoke_sample :
  BuildPublish.pushed (BuildPublish.invoke (BuildPublish.all_succeed BuildPublish.sample_out)).2
  = ["123456789012.dkr.ecr.eu-west-1.amazonaws.com/sagemaker-fastai:1.0-gpu-py36";
     "123456789012.dkr.ecr.eu-west-1.amazonaws.com/sagemaker-fastai:1.0-cpu-py36"].
Proof. reflexivity. Qed.

Example invoke_no_identity :
  BuildPublish.invoke BuildPublish.no_identity
  = (255, [BuildPublish.Wget BuildPublish.dockerfile_url; BuildPublish.AwsStsGetCallerIdentity]).
Proof. reflexivity. Qed.

Section BuildPublishFacts.
Import BuildPublish.

Lemma pushed_app (l1 l2 : list command) : pushed (l1 ++ l2) = pushed l1 ++ pushed l2.
Proof. apply omap_app. Qed.

(** Running a command adds it to the trace and goes on. *)
Lemma bind_run {A} (c : command) (k : reply → sh A) (w : world) (tr : list command) :
  (run c ≫= k) w tr = k (w tr c) w (tr ++ [c]).
Proof. reflexivity. Qed.

Lemma bind_ret {A B} (a : A) (k : A → sh B) (w : world) (tr : list command) :
  (mret a ≫= k) w tr = k a w tr.
Proof. reflexivity. Qed.

Lemma bind_assoc {A B C} (m : sh A) (f : A → sh B) (k : B → sh C) w tr :
  ((m ≫= f) ≫= k) w tr = (m ≫= (λ a, f a ≫= k)) w tr.
Proof.
  unfold mbind, sh_bind. by destruct (m w tr) as [[a|n] tr'].
Qed.

(** A login step never leaves the script, and pushes nothing. *)
Lemma run_output_of_next (c : command) (w : world) (tr : list command) :
  (∀ n, c ≠ DockerPush n) →
  ∃ r tr', run_output_of c w tr = (Next r, tr ++ tr') ∧ pushed tr' = [].
Proof.
  intros Hc. unfold run_output_of. rewrite bind_run.
  destruct (String.eqb (stdout (w tr c)) EmptyString).
  - exists (w tr c), [c]. split; [done |]. destruct c; try done. by destruct (Hc name).
  - eexists _, [c; RunOutput _]. unfold run. rewrite <- app_assoc. split; [done |].
    destruct c; try done. by destruct (Hc name).
Qed.

(** One round of the loop pushes the full name of its architecture. *)
Lemma build_variant_next (account region arch : string) (w : world) (tr : list command) :
  ∃ r tr', build_variant account region arch w tr = (Next r, tr ++ tr') ∧
           pushed tr' = [FULLNAME account region arch].
Proof.
  unfold build_variant. rewrite !bind_run. unfold run.
  eexists _, [_; _; _; _]. rewrite <- !app_assoc. split; [reflexivity | done].
Qed.

Lemma for_each_next (account region : string) (archs : list string) :
  ∀ (last : reply) (w : world) (tr : list command),
  ∃ r tr', for_each archs (build_variant account region) last w tr = (Next r, tr ++ tr') ∧
           pushed tr' = FULLNAME account region <$> archs.
Proof.
  induction archs as [|arch archs IH]; intros last w tr.
  - exists last, []. by rewrite app_nil_r.
  - simpl for_each.
    destruct (build_variant_next account region arch w tr) as (r & tr1 & Hb & Hp).
    unfold mbind, sh_bind. rewrite Hb.
    destruct (IH r w (tr ++ tr1)) as (r' & tr2 & Hf & Hp2).
    exists r', (tr1 ++ tr2). rewrite Hf, app_assoc. split; [done |].
    by rewrite pushed_app, Hp, Hp2.
Qed.

End BuildPublishFacts.

(** C3, as stated, fails: when the caller identity cannot be resolved the
    invocation pushes nothing. *)
Lemma build_without_identity_pushes_nothing :
  BuildPublish.pushed (BuildPublish.invoke BuildPublish.no_identity).2 = [] ∧
  ¬ (∀ w, length (BuildPublish.pushed (BuildPublish.invoke w).2) = 2%nat).
Proof.
  split; [reflexivity |].
  intros H. specialize (H BuildPublish.no_identity). discriminate H.
Qed.

(** C3, amended. Every invocation of the build cell in which the caller
    identity is resolved hands exactly two names to [docker push], one per
    architecture token, gpu then cpu; both are the same repository with the
    tag version-arch-runtime and differ in the architecture token only. *)
Theorem build_pushes_two_tags (w : BuildPublish.world) :
  BuildPublish.status
    (w [BuildPublish.Wget BuildPublish.dockerfile_url] BuildPublish.AwsStsGetCallerIdentity) = 0 →
  ∃ repository : string,
    BuildPublish.pushed (BuildPublish.invoke w).2 =
      (λ arch, repository +:+ ":" +:+ BuildPublish.FASTAI_VERSION +:+ "-" +:+ arch
                 +:+ "-" +:+ BuildPublish.PY_VERSION) <$> ["gpu"; "cpu"].
Proof.
  intros Hid. unfold BuildPublish.invoke, BuildPublish.script.
  rewrite !bind_run. cbn [app].
  rewrite Hid. change (negb (0 =? 0)) with false. cbv iota.
  rewrite !bind_run. cbn [app].
  set (account := BuildPublish.stdout _).
  set (region := if String.eqb _ _ then _ else _).
  set (tr0 := [_; _; _; _]).
  set (d := w _ (BuildPublish.AwsEcrDescribeRepositories _)).
  exists (account +:+ ".dkr.ecr." +:+ region +:+ ".amazonaws.com/" +:+ BuildPublish.IMAGE).
  assert (∃ c tr1, (if negb (BuildPublish.status d =? 0)
                    then BuildPublish.run (BuildPublish.AwsEcrCreateRepository BuildPublish.IMAGE)
                    else mret d) w tr0 = (BuildPublish.Next c, tr0 ++ tr1) ∧
                   BuildPublish.pushed tr1 = []) as (c & tr1 & Hc & Hp1).
  { destruct (negb _).
    - by eexists _, [_].
    - exists d, []. by rewrite app_nil_r. }
  unfold mbind at 1, BuildPublish.sh_bind at 1. rewrite Hc.
  destruct (run_output_of_next (BuildPublish.AwsEcrGetLogin None region) w (tr0 ++ tr1))
    as (r2 & tr2 & H2 & Hp2); [done |].
  unfold mbind at 1, BuildPublish.sh_bind at 1. rewrite H2.
  destruct (run_output_of_next
              (BuildPublish.AwsEcrGetLogin (Some "520713654638") region) w ((tr0 ++ tr1) ++ tr2))
    as (r3 & tr3 & H3 & Hp3); [done |].
  unfold mbind at 1, BuildPublish.sh_bind at 1. rewrite H3.
  destruct (for_each_next account region ["gpu"; "cpu"] r3 w (((tr0 ++ tr1) ++ tr2) ++ tr3))
    as (r4 & tr4 & H4 & Hp4).
  rewrite H4. cbn [snd].
  assert (BuildPublish.pushed tr0 = []) as Hp0 by reflexivity.
  rewrite !pushed_app, Hp0, Hp1, Hp2, Hp3, Hp4. cbn [app fmap list_fmap].
  unfold BuildPublish.FULLNAME, BuildPublish.TAG.
  by rewrite !append_assoc.
Qed.

Lemma build_pushes_two_tags_witness :
  ∃ repository : string,
    BuildPublish.pushed
      (BuildPublish.invoke (BuildPublish.all_succeed BuildPublish.sample_out)).2 =
      (λ arch, repository +:+ ":" +:+ BuildPublish.FASTAI_VERSION +:+ "-" +:+ arch
                 +:+ "-" +:+ BuildPublish.PY_VERSION) <$> ["gpu"; "cpu"].
Proof.
  apply (build_pushes_two_tags (BuildPublish.all_succeed BuildPublish.sample_out)).
  reflexivity.
Defined.

(** C7. When the caller identity cannot be resolved, the build cell ends at
    once with status 255: the Dockerfile download and the identity query
    are the only commands run, so no repository is described or created,
    no registry login is made and nothing is built, tagged or pushed. *)
Theorem identity_failure_aborts (w : BuildPublish.world) :
  BuildPublish.status
    (w [BuildPublish.Wget BuildPublish.dockerfile_url] BuildPublish.AwsStsGetCallerIdentity) ≠ 0 →
  (BuildPublish.invoke w).1 = 255 ∧
  (BuildPublish.invoke w).1 ≠ 0 ∧
  (BuildPublish.invoke w).2 =
    [BuildPublish.Wget BuildPublish.dockerfile_url; BuildPublish.AwsStsGetCallerIdentity] ∧
  ∀ c, c ∈ (BuildPublish.invoke w).2 → BuildPublish.publishing c = false.
Proof.
  intros Hid.
  assert (BuildPublish.invoke w =
          (255, [BuildPublish.Wget BuildPublish.dockerfile_url;
                 BuildPublish.AwsStsGetCallerIdentity])) as ->.
  { unfold BuildPublish.invoke, BuildPublish.script.
    rewrite !bind_run. cbn [app].
    destruct (Z.eqb_spec
      (BuildPublish.status
         (w [BuildPublish.Wget BuildPublish.dockerfile_url] BuildPublish.AwsStsGetCallerIdentity))
      0) as [E | _]; [done | reflexivity]. }
  split_and!; [done | done | done |].
  intros c Hc. simpl in Hc.
  apply elem_of_cons in Hc as [-> | Hc]; [done |].
  apply elem_of_cons in Hc as [-> | Hc]; [done |].
  by apply elem_of_nil in Hc.
Qed.

Lemma identity_failure_aborts_witness :
  (BuildPublish.invoke BuildPublish.no_identity).1 = 255 ∧
  (BuildPublish.invoke BuildPublish.no_identity).1 ≠ 0 ∧
  (BuildPublish.invoke BuildPublish.no_identity).2 =
    [BuildPublish.Wget BuildPublish.dockerfile_url; BuildPublish.AwsStsGetCallerIdentity] ∧
  ∀ c, c ∈ (BuildPublish.invoke BuildPublish.no_identity).2 → BuildPublish.publishing c = false.
Proof.
  apply (identity_failure_aborts BuildPublish.no_identity).
  vm_compute. discriminate.
Defined.

(** ** Dataset staging *)

Lemma prefix_append (c a b : string) :
  String.prefix a b = true → String.prefix (c +:+ a) (c +:+ b) = true.
Proof.
  intros H. induction c as [|x c IH]; [done |].
  rewrite !append_cons. simpl. by destruct (ascii_dec x x).
Qed.

Lemma startswith_under_metal (prefix rel : string) :
  Py.startswith rel "metal/" = true →
  Py.startswith (prefix +:+ "/" +:+ rel) (prefix +:+ "/metal/") = true.
Proof.
  intros H. unfold Py.startswith in *.
  change "/metal/" with ("/" +:+ "metal/").
  by do 2 apply prefix_append.
Qed.

(** [KeyCount] is positive exactly when an object lies under the prefix. *)
Lemma key_count_positive (s : S3.store) (Bucket Prefix : string) :
  (0 <? S3.KeyCount (S3.list_objects_v2 s Bucket Prefix)) = true ↔
  S3.holds_under s Bucket Prefix.
Proof.
  unfold S3.list_objects_v2, S3.holds_under. simpl.
  rewrite Z.ltb_lt.
  assert (0 < Z.min (Z.of_nat (size (S3.under s Bucket Prefix))) 1000 ↔
          size (S3.under s Bucket Prefix) ≠ 0%nat) as -> by lia.
  rewrite map_size_ne_0_lookup. unfold S3.under. split.
  - intros [[b key] [body H]].
    apply map_lookup_filter_Some in H as [H [Hb Hp]]. simpl in *. subst b.
    by exists key, body.
  - intros (key & body & H & Hp). exists (Bucket, key), body.
    by apply map_lookup_filter_Some.
Qed.

Lemma key_count_zero (s : S3.store) (Bucket Prefix : string) :
  (0 <? S3.KeyCount (S3.list_objects_v2 s Bucket Prefix)) = false ↔
  ¬ S3.holds_under s Bucket Prefix.
Proof. rewrite <- key_count_positive. by destruct (0 <? _). Qed.

Lemma upload_key_inj (key_prefix rel rel' : string) :
  key_prefix +:+ "/" +:+ rel = key_prefix +:+ "/" +:+ rel' → rel = rel'.
Proof. intros H. by do 2 apply String.app_inj in H. Qed.

(** An upload leaves alone every key that is not the key of a local file. *)
Lemma upload_data_other (files : list (string * string)) (bucket key_prefix : string) :
  ∀ (s : S3.store) k,
    (∀ rel body, (rel, body) ∈ files → k ≠ (bucket, key_prefix +:+ "/" +:+ rel)) →
    (S3.upload_data s files bucket key_prefix).1 !! k = s !! k.
Proof.
  unfold S3.upload_data. cbn [fst].
  induction files as [|[rel0 body0] files IH]; intros s k Hk; [done |].
  cbn [foldl fst snd]. rewrite IH.
  - apply lookup_insert_ne. intros <-.
    by apply (Hk rel0 body0 (list_elem_of_here _ _)).
  - intros rel body Hin. by apply (Hk rel body), list_elem_of_further.
Qed.

(** After an upload every local file has its object: the key is the prefix,
    a slash and the relative path, the body is that of a local file with
    this path. *)
Lemma upload_data_puts (files : list (string * string)) (bucket key_prefix : string) :
  ∀ (s : S3.store) rel body, (rel, body) ∈ files →
    ∃ body', (S3.upload_data s files bucket key_prefix).1
               !! (bucket, key_prefix +:+ "/" +:+ rel) = Some body' ∧
             (rel, body') ∈ files.
Proof.
  induction files as [|[rel0 body0] files IH]; intros s rel body Hin.
  - by apply elem_of_nil in Hin.
  - destruct (decide (rel ∈ files.*1)) as [Hlater | Hlast].
    + apply list_elem_of_fmap in Hlater as ([rel1 body1] & -> & Hin1).
      destruct (IH (<[(bucket, key_prefix +:+ "/" +:+ rel0) := body0]> s) rel1 body1 Hin1)
        as (body' & Hlookup & Hin').
      exists body'. split; [done | by apply list_elem_of_further].
    + apply elem_of_cons in Hin as [[= -> ->] | Hin].
      * exists body0. split; [| apply list_elem_of_here].
        change (S3.upload_data s ((rel0, body0) :: files) bucket key_prefix).1
          with (S3.upload_data (<[(bucket, key_prefix +:+ "/" +:+ rel0) := body0]> s)
                  files bucket key_prefix).1.
        rewrite upload_data_other; [apply lookup_insert_eq |].
        intros rel1 body1 Hin1 [= Heq%upload_key_inj]. subst rel1.
        apply Hlast. apply list_elem_of_fmap. by exists (rel0, body1).
      * destruct Hlast. apply list_elem_of_fmap. by exists (rel, body).
Qed.

(** The two ways through cell 20. *)
Lemma stage_unfold (env : Notebook.Env) (bucket_name prefix DATA_PATH : string)
    (store : S3.store) :
  Notebook.stage env bucket_name prefix DATA_PATH store =
  let key := prefix +:+ "/metal/" in
  let listing := [Notebook.Invoked (Notebook.ListObjectsV2 bucket_name key);
                  Notebook.Completed (Notebook.ListObjectsV2 bucket_name key)] in
  if 0 <? S3.KeyCount (S3.list_objects_v2 store bucket_name key) then
    (Notebook.Returned ("s3://" +:+ bucket_name +:+ "/" +:+ prefix),
     {| Notebook.s3 := store; Notebook.log := listing |})
  else
    (Notebook.Returned (S3.upload_data store (Notebook.data_files env) bucket_name prefix).2,
     {| Notebook.s3 := (S3.upload_data store (Notebook.data_files env) bucket_name prefix).1;
        Notebook.log :=
          listing ++ [Notebook.Invoked (Notebook.UploadData DATA_PATH bucket_name prefix);
                      Notebook.Completed (Notebook.UploadData DATA_PATH bucket_name prefix)] |}).
Proof.
  unfold Notebook.stage, Notebook.cell_20, Notebook.list_objects_v2, Notebook.upload_data.
  cbv zeta. unfold mbind, Notebook.nb_bind, mret, Notebook.nb_ret, Notebook.emit.
  cbn [Notebook.s3 Notebook.log app].
  by destruct (0 <? _).
Qed.

Lemma sport_only_has_no_metal :
  ¬ S3.holds_under Notebook.sport_only Notebook.sunny_bucket
      (Notebook.demo_prefix +:+ "/metal/").
Proof.
  intros (key & body & H & Hp). unfold Notebook.sport_only in H.
  apply lookup_singleton_Some in H as [[= <-] _]. discriminate Hp.
Qed.

(** C1, as stated, fails: an object exists under the target prefix, and
    the upload is made all the same. *)
Lemma upload_despite_object_under_prefix :
  S3.holds_under Notebook.sport_only Notebook.sunny_bucket Notebook.demo_prefix ∧
  Notebook.uploads
    (Notebook.log (Notebook.stage Notebook.sunny Notebook.sunny_bucket Notebook.demo_prefix
                     Notebook.sunny_path Notebook.sport_only).2) = true.
Proof.
  split.
  - exists "sagemaker/DEMO-shirts-classification/sport/0001.jpg", "s1".
    split; [apply lookup_singleton_eq | reflexivity].
  - rewrite stage_unfold. cbv zeta.
    pose proof sport_only_has_no_metal as H. apply key_count_zero in H.
    rewrite H. reflexivity.
Qed.

(** C1, amended. Cell 20 skips the upload exactly when at least one object
    exists under the key prefix/metal/.  Then the location string
    s3://bucket/prefix is used and the store is left as it is; otherwise
    [upload_data] is called for the local tree, every local file has its
    object under the prefix afterwards, the other keys are left as they
    were, and the location that [upload_data] returns is used. *)
Theorem staging_skips_iff_metal_staged (env : Notebook.Env)
    (bucket_name prefix DATA_PATH : string) (store : S3.store) :
  let r := Notebook.stage env bucket_name prefix DATA_PATH store in
  (Notebook.uploads (Notebook.log r.2) = false ↔
     S3.holds_under store bucket_name (prefix +:+ "/metal/")) ∧
  (S3.holds_under store bucket_name (prefix +:+ "/metal/") →
     r.1 = Notebook.Returned ("s3://" +:+ bucket_name +:+ "/" +:+ prefix) ∧
     Notebook.s3 r.2 = store) ∧
  (¬ S3.holds_under store bucket_name (prefix +:+ "/metal/") →
     r.1 = Notebook.Returned
             (S3.upload_data store (Notebook.data_files env) bucket_name prefix).2 ∧
     Notebook.Invoked (Notebook.UploadData DATA_PATH bucket_name prefix) ∈ Notebook.log r.2 ∧
     Notebook.s3 r.2 = (S3.upload_data store (Notebook.data_files env) bucket_name prefix).1 ∧
     (∀ rel body, (rel, body) ∈ Notebook.data_files env →
        ∃ body', Notebook.s3 r.2 !! (bucket_name, prefix +:+ "/" +:+ rel) = Some body' ∧
                 (rel, body') ∈ Notebook.data_files env) ∧
     (∀ k, (∀ rel body, (rel, body) ∈ Notebook.data_files env →
              k ≠ (bucket_name, prefix +:+ "/" +:+ rel)) →
           Notebook.s3 r.2 !! k = store !! k)).
Proof.
  intros r. subst r. rewrite stage_unfold. cbv zeta.
  destruct (0 <? S3.KeyCount _) eqn:Hcount.
  - apply key_count_positive in Hcount. cbn [fst snd Notebook.log Notebook.s3].
    split_and!; [done | done | done].
  - apply key_count_zero in Hcount. cbn [fst snd Notebook.log Notebook.s3].
    split_and!; [done | done |].
    intros _. split_and!; [done | | done | |].
    + cbn [app]. rewrite !elem_of_cons. auto.
    + intros rel body Hin. by eapply upload_data_puts.
    + intros k Hk. by apply upload_data_other.
Qed.

Lemma metal_staged_has_metal :
  S3.holds_under Notebook.metal_staged Notebook.sunny_bucket
    (Notebook.demo_prefix +:+ "/metal/").
Proof.
  exists "sagemaker/DEMO-shirts-classification/metal/0001.jpg", "m1".
  split; [apply lookup_singleton_eq | reflexivity].
Qed.

Lemma staging_skips_iff_metal_staged_witness :
  ((Notebook.stage Notebook.sunny Notebook.sunny_bucket Notebook.demo_prefix
      Notebook.sunny_path Notebook.metal_staged).1
   = Notebook.Returned ("s3://" +:+ Notebook.sunny_bucket +:+ "/" +:+ Notebook.demo_prefix) ∧
   Notebook.s3 (Notebook.stage Notebook.sunny Notebook.sunny_bucket Notebook.demo_prefix
                  Notebook.sunny_path Notebook.metal_staged).2 = Notebook.metal_staged) ∧
  Notebook.Invoked
    (Notebook.UploadData Notebook.sunny_path Notebook.sunny_bucket Notebook.demo_prefix)
    ∈ Notebook.log (Notebook.stage Notebook.sunny Notebook.sunny_bucket Notebook.demo_prefix
                      Notebook.sunny_path Notebook.sport_only).2.
Proof.
  split.
  - exact (proj1 (proj2 (staging_skips_iff_metal_staged Notebook.sunny Notebook.sunny_bucket
                           Notebook.demo_prefix Notebook.sunny_path Notebook.metal_staged))
             metal_staged_has_metal).
  - exact (proj1 (proj2 (proj2 (proj2 (staging_skips_iff_metal_staged Notebook.sunny
                                         Notebook.sunny_bucket Notebook.demo_prefix
                                         Notebook.sunny_path Notebook.sport_only))
                           sport_only_has_no_metal))).
Defined.

Example stage_twice_sunny :
  let rr := Notebook.stage_twice Notebook.sunny Notebook.sunny_bucket Notebook.demo_prefix
              Notebook.sunny_path Notebook.sport_only in
  Notebook.uploads (Notebook.log rr.1.2) = true ∧
  Notebook.uploads (Notebook.log rr.2.2) = false ∧
  rr.1.1 = rr.2.1.
Proof. vm_compute. done. Qed.

(** C2, as stated, fails.  The prefix holds an object (an image of the
    sport class), and an invocation uploads all the same; with a local
    dataset that has no file under metal/ the upload leaves prefix/metal/
    empty, and the invocation after it uploads again. *)
Lemma restaging_uploads_again :
  S3.holds_under Notebook.sport_only Notebook.sunny_bucket Notebook.demo_prefix ∧
  Notebook.uploads
    (Notebook.log
       (Notebook.stage Notebook.sunny Notebook.sunny_bucket Notebook.demo_prefix
          Notebook.sunny_path Notebook.sport_only).2) = true ∧
  Notebook.uploads
    (Notebook.log
       (Notebook.stage_twice Notebook.no_metal_files Notebook.sunny_bucket
          Notebook.demo_prefix Notebook.sunny_path Notebook.sport_only).2.2) = true.
Proof.
  split_and!.
  - exists "sagemaker/DEMO-shirts-classification/sport/0001.jpg", "s1".
    split; [apply lookup_singleton_eq | reflexivity].
  - vm_compute. reflexivity.
  - vm_compute. reflexivity.
Qed.

(** C2, amended. Whenever the key prefix/metal/ already holds an object, or
    the local dataset has a file under metal/, a second invocation of cell
    20 performs no upload, leaves the store as the first invocation left
    it, and returns the same location string as the first invocation,
    s3://bucket/prefix. *)
Theorem restaging_is_idempotent (env : Notebook.Env)
    (bucket_name prefix DATA_PATH : string) (store : S3.store) :
  S3.holds_under store bucket_name (prefix +:+ "/metal/") ∨
  (∃ rel body, (rel, body) ∈ Notebook.data_files env ∧ Py.startswith rel "metal/" = true) →
  let rr := Notebook.stage_twice env bucket_name prefix DATA_PATH store in
  Notebook.uploads (Notebook.log rr.2.2) = false ∧
  Notebook.s3 rr.2.2 = Notebook.s3 rr.1.2 ∧
  rr.2.1 = rr.1.1 ∧
  rr.2.1 = Notebook.Returned ("s3://" +:+ bucket_name +:+ "/" +:+ prefix).
Proof.
  intros H rr. subst rr. unfold Notebook.stage_twice. cbv zeta. cbn [fst snd].
  pose proof (staging_skips_iff_metal_staged env bucket_name prefix DATA_PATH store)
    as (_ & Hskip & Hupload).
  set (first := Notebook.stage env bucket_name prefix DATA_PATH store) in *.
  assert (S3.holds_under (Notebook.s3 first.2) bucket_name (prefix +:+ "/metal/") ∧
          first.1 = Notebook.Returned ("s3://" +:+ bucket_name +:+ "/" +:+ prefix))
    as [Hstaged Hfirst].
  { destruct (0 <? S3.KeyCount (S3.list_objects_v2 store bucket_name (prefix +:+ "/metal/")))
      eqn:Hcount.
    - apply key_count_positive in Hcount.
      destruct (Hskip Hcount) as [-> ->]. done.
    - apply key_count_zero in Hcount.
      destruct (Hupload Hcount) as (-> & _ & _ & Hputs & _). split; [| done].
      destruct H as [H | (rel & body & Hin & Hrel)]; [done |].
      destruct (Hputs rel body Hin) as (body' & Hlookup & _).
      exists (prefix +:+ "/" +:+ rel), body'. split; [done |].
      by apply startswith_under_metal. }
  pose proof (staging_skips_iff_metal_staged env bucket_name prefix DATA_PATH
                (Notebook.s3 first.2)) as (Hiff & Hskip2 & _).
  destruct (Hskip2 Hstaged) as [Hloc Hstore].
  split_and!; [by apply Hiff | done | by rewrite Hloc, Hfirst | done].
Qed.

Lemma restaging_is_idempotent_witness :
  let rr := Notebook.stage_twice Notebook.sunny Notebook.sunny_bucket Notebook.demo_prefix
              Notebook.sunny_path Notebook.sport_only in
  Notebook.uploads (Notebook.log rr.2.2) = false ∧
  Notebook.s3 rr.2.2 = Notebook.s3 rr.1.2 ∧
  rr.2.1 = rr.1.1 ∧
  rr.2.1 = Notebook.Returned
             ("s3://" +:+ Notebook.sunny_bucket +:+ "/" +:+ Notebook.demo_prefix).
Proof.
  apply (restaging_is_idempotent Notebook.sunny Notebook.sunny_bucket Notebook.demo_prefix
           Notebook.sunny_path Notebook.sport_only).
  right. exists "metal/0001.jpg", "m1". split; [| reflexivity].
  apply elem_of_cons. by left.
Defined.

(** ** Runs of the notebook *)

(** Unfolds the cells and the plumbing of [nb], leaving the calls to the
    object store, the build script and the string functions folded. *)
Ltac nb_unfold :=
  cbv beta iota zeta delta
    [Notebook.run_all Notebook.cells Notebook.cell_5 Notebook.cell_6 Notebook.cell_8
     Notebook.cell_12 Notebook.cell_13 Notebook.cell_14 Notebook.cell_17 Notebook.cell_20
     Notebook.cell_23 Notebook.cell_28 Notebook.cell_31 Notebook.cell_34 Notebook.cell_35
     Notebook.cell_37 Notebook.cell_41 Notebook.cell_42 Notebook.cell_45
     Notebook.remote Notebook.bash_cell Notebook.emit Notebook.raise
     Notebook.list_objects_v2 Notebook.upload_data
     mbind mret Notebook.nb_bind Notebook.nb_ret Notebook.s3 Notebook.log app].

(** Splits on the outcome the run waits for next. *)
Ltac nb_case :=
  match goal with
  | |- context [match ?o with Notebook.Returned _ => _ | Notebook.Raised _ => _ end] =>
      lazymatch o with
      | context [match _ with Notebook.Returned _ => _ | Notebook.Raised _ => _ end] => fail
      | context [if _ then _ else _] => fail
      | _ => destruct o eqn:?
      end
  | |- context [if ?b then _ else _] =>
      lazymatch b with
      | context [match _ with Notebook.Returned _ => _ | Notebook.Raised _ => _ end] => fail
      | context [if _ then _ else _] => fail
      | _ => destruct b eqn:?
      end
  end; nb_unfold.

(** Closes a goal whose hypothesis [H] puts an event in an explicit log. *)
Ltac in_log H :=
  repeat (apply elem_of_cons in H as [H | H]; [try discriminate H |]);
  [.. | by apply elem_of_nil in H].

(** What a training job is submitted with, whenever one is submitted. *)
Lemma fit_invocation (env : Notebook.Env) (store : S3.store)
    (estimator : Notebook.Estimator) (inputs job_name : string) :
  Notebook.Invoked (Notebook.Fit estimator inputs job_name)
    ∈ Notebook.log (Notebook.run_all env store).2 →
  ∃ bucket_name role region account,
    Notebook.on_default_bucket env = Notebook.Returned bucket_name ∧
    Notebook.on_execution_role env = Notebook.Returned role ∧
    Notebook.on_region_name env = Notebook.Returned region ∧
    Notebook.on_caller_identity env = Notebook.Returned account ∧
    estimator = Notebook.cell_26 role (Notebook.cell_24 account region "sagemaker-fastai") ∧
    inputs = Notebook.cell_27 bucket_name "sagemaker/DEMO-shirts-classification" ∧
    job_name = Notebook.on_name_from_image env.
Proof.
  nb_unfold. repeat nb_case.
  all: cbv [snd]; intros H.
  all: in_log H.
  all: injection H as -> -> ->.
  all: by eexists _, _, _, _.
Qed.

Lemma compile_guarded_spec (l : list Notebook.event) :
  ∀ seen, Notebook.compile_guarded seen l = true →
  ∀ pre e post, l = pre ++ e :: post → Notebook.is_compile_invocation e = true →
  seen = true ∨ ∃ e', e' ∈ pre ∧ Notebook.is_fit_completion e' = true.
Proof.
  induction l as [|a l IH]; intros seen Hg pre e post Hl He.
  - by destruct pre.
  - simpl in Hg. apply andb_true_iff in Hg as [Ha Hg].
    destruct pre as [|b pre]; simplify_eq/=.
    + rewrite He in Ha. simpl in Ha. by left.
    + destruct (IH _ Hg pre e post eq_refl He) as [Hseen | (e' & Hin & Hfit)].
      * apply orb_true_iff in Hseen as [-> | Hb]; [by left |].
        right. exists b. split; [apply list_elem_of_here | done].
      * right. exists e'. split; [by apply list_elem_of_further | done].
Qed.

Lemma run_all_compile_guarded (env : Notebook.Env) (store : S3.store) :
  Notebook.compile_guarded false (Notebook.log (Notebook.run_all env store).2) = true.
Proof. nb_unfold. repeat nb_case. all: reflexivity. Qed.

Example sunny_run_compiles :
  existsb Notebook.is_compile_invocation
    (Notebook.log (Notebook.run_all Notebook.sunny ∅).2) = true.
Proof. vm_compute. reflexivity. Qed.

Example failed_training_stops_the_run :
  (Notebook.run_all Notebook.training_fails ∅).1 = Notebook.Raised "UnexpectedStatusException" ∧
  existsb Notebook.is_compile_invocation
    (Notebook.log (Notebook.run_all Notebook.training_fails ∅).2) = false.
Proof. vm_compute. done. Qed.

(** C4. In every run, wherever the log has an invocation of model
    compilation, a completion of the training submission stands before it;
    the submission completes only when [fit] returns, and when [fit] raises
    no compilation is invoked anywhere in the run. *)
Theorem compile_only_after_training (env : Notebook.Env) (store : S3.store) :
  let l := Notebook.log (Notebook.run_all env store).2 in
  (∀ pre e post, l = pre ++ e :: post → Notebook.is_compile_invocation e = true →
     ∃ e', e' ∈ pre ∧ Notebook.is_fit_completion e' = true) ∧
  (∀ e, e ∈ l → Notebook.is_fit_completion e = true →
     ∃ p, Notebook.on_fit env = Notebook.Returned p) ∧
  (∀ x, Notebook.on_fit env = Notebook.Raised x →
     ∀ e, e ∈ l → Notebook.is_compile_invocation e = false).
Proof.
  intros l. subst l. split_and!.
  - intros pre e post Hl He.
    destruct (compile_guarded_spec _ false (run_all_compile_guarded env store)
                pre e post Hl He) as [? | ?]; done.
  - nb_unfold. repeat nb_case.
    all: cbv [snd]; intros e H Hfit.
    all: try by eexists.
    all: in_log H; subst e; discriminate Hfit.
  - intros x. nb_unfold. repeat nb_case.
    all: cbv [snd]; intros Hx e H.
    all: try discriminate Hx.
    all: in_log H; by subst e.
Qed.

Lemma compile_only_after_training_witness :
  Forall (λ e, Notebook.is_compile_invocation e = false)
    (Notebook.log (Notebook.run_all Notebook.training_fails ∅).2).
Proof.
  apply Forall_forall.
  exact (proj2 (proj2 (compile_only_after_training Notebook.training_fails ∅))
           "UnexpectedStatusException" eq_refl).
Defined.

(** Finds an event in an explicit log. *)
Ltac find_in_log :=
  vm_compute; repeat first [apply list_elem_of_here | apply list_elem_of_further].

Example sunny_uploads_on_empty_store :
  Notebook.uploads (Notebook.log (Notebook.run_all Notebook.sunny ∅).2) = true ∧
  Notebook.uploads (Notebook.log (Notebook.run_all Notebook.sunny Notebook.metal_staged).2)
    = false.
Proof. vm_compute. done. Qed.

(** The request of a run in which every call succeeds has eight keys:
    C5 as it is stated, with exactly two keys and no additions, fails for
    the mapping the job is submitted with.  Besides epochs and batch-size
    the request names the script of the entry point, among the six entries
    the SDK writes, and the value sent for epochs is the text 6. *)
Lemma submitted_request_has_added_keys :
  Notebook.Invoked
    (Notebook.Fit Notebook.sunny_estimator
       "s3://sagemaker-eu-west-1-123456789012/sagemaker/DEMO-shirts-classification"
       "fastai-shirts-2018-11-27-20-21-19-215")
    ∈ Notebook.log (Notebook.run_all Notebook.sunny ∅).2 ∧
  Framework.sunny_request !! "sagemaker_program" = Some (Framework.json_str "train.py") ∧
  Framework.sunny_request !! "epochs" = Some "6" ∧
  size Framework.sunny_request = 8%nat ∧
  dom Framework.sunny_request ≠ ({[ "epochs"; "batch-size" ]} : gset string).
Proof.
  split_and!.
  - find_in_log.
  - vm_compute. reflexivity.
  - vm_compute. reflexivity.
  - vm_compute. reflexivity.
  - intros H.
    assert ("sagemaker_program" ∈ dom Framework.sunny_request) as Hin.
    { apply elem_of_dom. eexists. vm_compute. reflexivity. }
    rewrite H in Hin. set_solver.
Qed.

(** C5, amended. The mapping the notebook gives the estimator of every
    submitted training job has exactly the keys epochs and batch-size, with
    the values 6 and 64.  The request [fit] sends carries these two keys
    with the values as JSON text, 6 and 64, and besides them the six keys
    the SDK adds and no other, wherever the code was staged and whatever
    the region. *)
Theorem submitted_hyperparameters (env : Notebook.Env) (store : S3.store)
    (estimator : Notebook.Estimator) (inputs job_name code_dir region : string) :
  Notebook.Invoked (Notebook.Fit estimator inputs job_name)
    ∈ Notebook.log (Notebook.run_all env store).2 →
  let request := Framework.hyperparameters estimator code_dir job_name region in
  Notebook.hyperparameters estimator = {[ "epochs" := 6; "batch-size" := 64 ]} ∧
  request !! "epochs" = Some "6" ∧
  request !! "batch-size" = Some "64" ∧
  dom request = {[ "epochs"; "batch-size" ]} ∪ Framework.added.
Proof.
  intros H request. subst request.
  apply fit_invocation in H as (? & ? & ? & ? & _ & _ & _ & _ & -> & _).
  unfold Framework.hyperparameters.
  cbn [Notebook.hyperparameters Notebook.cell_26 Notebook.entry_point].
  split_and!.
  - done.
  - vm_compute. reflexivity.
  - vm_compute. reflexivity.
  - rewrite !dom_insert_L, dom_fmap_L, dom_insert_L, dom_singleton_L.
    unfold Framework.added. set_solver.
Qed.

Lemma submitted_hyperparameters_witness :
  Notebook.hyperparameters Notebook.sunny_estimator = {[ "epochs" := 6; "batch-size" := 64 ]} ∧
  Framework.sunny_request !! "epochs" = Some "6" ∧
  Framework.sunny_request !! "batch-size" = Some "64" ∧
  dom Framework.sunny_request = {[ "epochs"; "batch-size" ]} ∪ Framework.added.
Proof.
  apply (submitted_hyperparameters Notebook.sunny ∅ Notebook.sunny_estimator
           "s3://sagemaker-eu-west-1-123456789012/sagemaker/DEMO-shirts-classification"
           "fastai-shirts-2018-11-27-20-21-19-215"
           "s3://sagemaker-eu-west-1-123456789012/fastai-shirts-2018-11-27-20-21-19-215/source/sourcedir.tar.gz"
           "eu-west-1").
  find_in_log.
Defined.

(** C9. The dataset location handed to the training submission is
    s3://bucket_name/prefix in every run, whatever the store held before,
    that is whichever branch cell 20 took. *)
Theorem training_data_location (env : Notebook.Env) (store : S3.store)
    (estimator : Notebook.Estimator) (inputs job_name : string) :
  Notebook.Invoked (Notebook.Fit estimator inputs job_name)
    ∈ Notebook.log (Notebook.run_all env store).2 →
  ∃ bucket_name,
    Notebook.on_default_bucket env = Notebook.Returned bucket_name ∧
    inputs = "s3://" +:+ bucket_name +:+ "/" +:+ "sagemaker/DEMO-shirts-classification".
Proof.
  intros H.
  apply fit_invocation in H as (bucket_name & ? & ? & ? & Hb & _ & _ & _ & _ & -> & _).
  by exists bucket_name.
Qed.

Lemma training_data_location_witness :
  (∃ bucket_name,
     Notebook.on_default_bucket Notebook.sunny = Notebook.Returned bucket_name ∧
     "s3://sagemaker-eu-west-1-123456789012/sagemaker/DEMO-shirts-classification"
     = "s3://" +:+ bucket_name +:+ "/" +:+ "sagemaker/DEMO-shirts-classification") ∧
  Notebook.uploads (Notebook.log (Notebook.run_all Notebook.sunny Notebook.metal_staged).2)
    = false.
Proof.
  split.
  - apply (training_data_location Notebook.sunny Notebook.metal_staged
             Notebook.sunny_estimator
             "s3://sagemaker-eu-west-1-123456789012/sagemaker/DEMO-shirts-classification"
             "fastai-shirts-2018-11-27-20-21-19-215").
    find_in_log.
  - vm_compute. reflexivity.
Defined.

Lemma endswith_append (a s : string) : Py.endswith (a +:+ s) s = true.
Proof.
  induction a as [|c a IH].
  - rewrite append_empty_l. destruct s; cbn -[String.eqb]; by rewrite String.eqb_refl.
  - rewrite append_cons. cbn -[String.eqb]. rewrite IH. by destruct (String.eqb _ _).
Qed.

(** C10. The image URI of the submitted training job is the repository
    URI with the fixed tag 1.0-gpu-py36, which is the tag the build cell
    gives the gpu variant. *)
Theorem training_image_is_gpu (env : Notebook.Env) (store : S3.store)
    (estimator : Notebook.Estimator) (inputs job_name : string) :
  Notebook.Invoked (Notebook.Fit estimator inputs job_name)
    ∈ Notebook.log (Notebook.run_all env store).2 →
  ∃ account region,
    Notebook.on_caller_identity env = Notebook.Returned account ∧
    Notebook.on_region_name env = Notebook.Returned region ∧
    Notebook.image_name estimator =
      account +:+ ".dkr.ecr." +:+ region +:+ ".amazonaws.com/sagemaker-fastai" +:+ ":1.0-gpu-py36" ∧
    Notebook.image_name estimator = BuildPublish.FULLNAME account region "gpu" ∧
    Py.endswith (Notebook.image_name estimator) (":" +:+ BuildPublish.TAG "gpu") = true ∧
    BuildPublish.TAG "gpu" = "1.0-gpu-py36".
Proof.
  intros H.
  apply fit_invocation in H as (? & ? & region & account & _ & _ & Hr & Ha & -> & _).
  exists account, region. split_and!; [done | done | | | | done].
  - reflexivity.
  - reflexivity.
  - simpl. unfold Notebook.cell_24.
    change (":" +:+ BuildPublish.TAG "gpu") with ":1.0-gpu-py36".
    rewrite <- !append_assoc. apply endswith_append.
Qed.

Lemma training_image_is_gpu_witness :
  ∃ account region,
    Notebook.on_caller_identity Notebook.sunny = Notebook.Returned account ∧
    Notebook.on_region_name Notebook.sunny = Notebook.Returned region ∧
    Notebook.image_name Notebook.sunny_estimator =
      account +:+ ".dkr.ecr." +:+ region +:+ ".amazonaws.com/sagemaker-fastai" +:+ ":1.0-gpu-py36" ∧
    Notebook.image_name Notebook.sunny_estimator = BuildPublish.FULLNAME account region "gpu" ∧
    Py.endswith (Notebook.image_name Notebook.sunny_estimator)
      (":" +:+ BuildPublish.TAG "gpu") = true ∧
    BuildPublish.TAG "gpu" = "1.0-gpu-py36".
Proof.
  apply (training_image_is_gpu Notebook.sunny ∅ Notebook.sunny_estimator
           "s3://sagemaker-eu-west-1-123456789012/sagemaker/DEMO-shirts-classification"
           "fastai-shirts-2018-11-27-20-21-19-215").
  find_in_log.
Defined.

(** ** Metric extraction *)

Example compile_small :
  Re.compile "a=(\S+)" =
  Some (Re.lits "a=" (Re.Seq (Re.Group 1 (Re.Seq (Re.Plus (Re.One Re.NonSpace)) Re.Eps)) Re.Eps)).
Proof. reflexivity. Qed.

Example compile_refuses_lazy : Re.compile "a+?" = None.
Proof. reflexivity. Qed.

Example rows_train_log :
  Metrics.rows Notebook.sunny_estimator "valid:accuracy"
    "#quality_metric: host=algo-1, epoch=5, accuracy=0.912" = [("valid:accuracy", "0.912")].
Proof. vm_compute. reflexivity. Qed.

Example rows_loss_line :
  Metrics.rows Notebook.sunny_estimator "valid:accuracy"
    "#quality_metric: host=algo-1, epoch=5, train_loss=0.912" = [].
Proof. vm_compute. reflexivity. Qed.

Section ReFacts.
Import Re.

Lemma compile_accuracy_rule :
  compile "#quality_metric: host=\S+, epoch=\S+, accuracy=(\S+)" =
  Some (lits "#quality_metric: host=" accuracy_tail).
Proof. reflexivity. Qed.

Lemma exec_lits (l : string) (r : regex) (s : string) (g : groups)
    (k : string → groups → option groups) :
  exec (lits l r) (l +:+ s) g k = exec r s g k.
Proof.
  induction l as [|c l IH]; [done |].
  rewrite append_cons. simpl. by rewrite Ascii.eqb_refl.
Qed.

Lemma star_stop (fuel : nat) (a : ascii) (rest : string) (g : groups)
    (k : string → groups → option groups) :
  is_space a = true →
  star (exec (One NonSpace)) fuel (String a rest) g k = k (String a rest) g.
Proof.
  intros Ha. destruct fuel as [|fuel]; [done |].
  simpl. by rewrite Ha.
Qed.

Lemma star_one_more (fuel : nat) (a : ascii) (rest : string) (g : groups)
    (k : string → groups → option groups) :
  is_space a = false →
  star (exec (One NonSpace)) (S fuel) (String a rest) g k =
  match star (exec (One NonSpace)) fuel rest g k with
  | Some res => Some res
  | None => k (String a rest) g
  end.
Proof.
  intros Ha. cbn [star exec accepts]. rewrite Ha. cbn [negb String.length].
  by rewrite (proj2 (Nat.ltb_lt _ _) (Nat.lt_succ_diag_r _)).
Qed.

(** Greedy iteration runs through a token free of white space: what the
    iteration finds after the token is what it finds before it. *)
Lemma star_run (tok : string) :
  ∀ (fuel : nat) (rest : string) (g : groups) (k : string → groups → option groups)
    (res : groups),
    no_space tok = true →
    star (exec (One NonSpace)) fuel rest g k = Some res →
    star (exec (One NonSpace)) (String.length tok + fuel) (tok +:+ rest) g k = Some res.
Proof.
  induction tok as [|c tok IH]; intros fuel rest g k res Htok Hrest; [done |].
  simpl in Htok. apply andb_true_iff in Htok as [Hc Htok].
  apply negb_true_iff in Hc.
  rewrite append_cons. cbn [String.length Nat.add].
  rewrite star_one_more by done.
  by rewrite (IH fuel rest g k res Htok Hrest).
Qed.

Lemma length_append (a b : string) :
  String.length (a +:+ b) = (String.length a + String.length b)%nat.
Proof.
  induction a as [|c a IH]; [done |].
  rewrite append_cons. simpl. by rewrite IH.
Qed.

(** [\S+] on a non-empty token free of white space. *)
Lemma plus_run (tok rest : string) (g : groups) (k : string → groups → option groups)
    (res : groups) :
  tok ≠ EmptyString →
  no_space tok = true →
  star (exec (One NonSpace)) (String.length rest) rest g k = Some res →
  exec (Plus (One NonSpace)) (tok +:+ rest) g k = Some res.
Proof.
  intros Hne Htok Hrest. destruct tok as [|c tok]; [done |].
  simpl in Htok. apply andb_true_iff in Htok as [Hc Htok].
  rewrite append_cons. cbn [exec accepts]. rewrite Hc.
  rewrite length_append. by apply star_run.
Qed.

Lemma search_here (r : regex) (s : string) (g : groups) :
  exec r s ∅ (λ _ g', Some g') = Some g → search r s = Some g.
Proof. intros H. destruct s; simpl; by rewrite H. Qed.

Lemma search_skip (l : string) (r : regex) (c : ascii) (s : string) :
  Ascii.eqb c "#" = false →
  search (lits ("#" +:+ l) r) (String c s) = search (lits ("#" +:+ l) r) s.
Proof. intros Hc. simpl. by rewrite Hc. Qed.

(** The accuracy rule on a line of the training log. *)
Lemma search_accuracy (pre host epoch : string) :
  Py.contains "#" pre = false →
  host ≠ EmptyString → epoch ≠ EmptyString →
  no_space host = true → no_space epoch = true →
  search (lits "#quality_metric: host=" accuracy_tail)
    (pre +:+ "#quality_metric: host=" +:+ host +:+ ", epoch=" +:+ epoch
       +:+ ", accuracy=0.912")
  = Some {[ 1%nat := "0.912" ]}.
Proof.
  intros Hpre Hhost Hepoch Hh He.
  induction pre as [|c pre IH].
  - rewrite append_empty_l. apply search_here.
    rewrite exec_lits. unfold accuracy_tail. cbn [exec].
    apply plus_run; [done | done |].
    change (", epoch=" +:+ epoch +:+ ", accuracy=0.912")
      with (String "," (String " " ("epoch=" +:+ epoch +:+ ", accuracy=0.912"))).
    cbn [String.length].
    rewrite star_one_more by reflexivity.
    rewrite star_stop by reflexivity.
    change (exec (lits ", epoch=" ?r) (String " " ?s) ∅ ?k) with (@None groups).
    cbv iota.
    change (String "," (String " " ("epoch=" +:+ epoch +:+ ", accuracy=0.912")))
      with (", epoch=" +:+ epoch +:+ ", accuracy=0.912").
    rewrite exec_lits. cbn [exec].
    apply plus_run; [done | done |].
    vm_compute. reflexivity.
  - simpl in Hpre. apply orb_false_iff in Hpre as [Hc Hpre].
    rewrite append_cons.
    rewrite (search_skip "quality_metric: host=") by done.
    by apply IH.
Qed.

End ReFacts.

Lemma accuracy_rule (role image_name : string) :
  Metrics.rule (Notebook.cell_26 role image_name) "valid:accuracy" =
  Some {| Notebook.Name := "valid:accuracy";
          Notebook.Regex := "#quality_metric: host=\S+, epoch=\S+, accuracy=(\S+)" |}.
Proof. reflexivity. Qed.

(** C6, as stated, fails: a log line that ends in accuracy=0.912 and lacks
    the head the pattern asks for yields no row. *)
Lemma bare_accuracy_line_yields_no_row :
  Py.endswith "epoch 5 accuracy=0.912" "accuracy=0.912" = true ∧
  Metrics.rows Notebook.sunny_estimator "valid:accuracy" "epoch 5 accuracy=0.912" = [].
Proof. split; vm_compute; reflexivity. Qed.

(** C6, amended. The rule valid:accuracy of the training job, applied to a
    log line made of text free of '#', then
    #quality_metric: host=H, epoch=E, accuracy=0.912 with H and E free of
    white space and not empty, yields exactly one row, with the value
    0.912. *)
Theorem accuracy_rule_extracts (role image_name pre host epoch : string) :
  Py.contains "#" pre = false →
  host ≠ EmptyString → epoch ≠ EmptyString →
  Re.no_space host = true → Re.no_space epoch = true →
  Metrics.rows (Notebook.cell_26 role image_name) "valid:accuracy"
    (pre +:+ "#quality_metric: host=" +:+ host +:+ ", epoch=" +:+ epoch
       +:+ ", accuracy=0.912")
  = [("valid:accuracy", "0.912")].
Proof.
  intros Hpre Hhost Hepoch Hh He.
  unfold Metrics.rows. rewrite accuracy_rule.
  unfold Metrics.extract. cbn [Notebook.Regex Notebook.Name].
  rewrite compile_accuracy_rule.
  by rewrite search_accuracy.
Qed.

Lemma accuracy_rule_extracts_witness :
  Metrics.rows Notebook.sunny_estimator "valid:accuracy"
    ("2018-11-27 20:31:02 " +:+ "#quality_metric: host=" +:+ "algo-1" +:+ ", epoch=" +:+ "5"
       +:+ ", accuracy=0.912")
  = [("valid:accuracy", "0.912")].
Proof.
  apply (accuracy_rule_extracts "arn:aws:iam::123456789012:role/SageMakerRole"
           (Notebook.cell_24 "123456789012" "eu-west-1" "sagemaker-fastai")
           "2018-11-27 20:31:02 " "algo-1" "5");
    first [reflexivity | discriminate].
Defined.

(** * More of the build script *)

Example gpu_failure_is_masked :
  (BuildPublish.invoke BuildTrace.gpu_fails).1 = 0 ∧
  (BuildPublish.invoke BuildTrace.cpu_push_fails).1 = 1.
Proof. vm_compute. done. Qed.

Example fresh_account_trace :
  BuildTrace.creations (BuildPublish.invoke BuildTrace.fresh_account).2
    = [BuildPublish.AwsEcrCreateRepository "sagemaker-fastai"] ∧
  BuildTrace.logins (BuildPublish.invoke BuildTrace.fresh_account).2
    = [BuildPublish.AwsEcrGetLogin None "us-west-2";
       BuildPublish.AwsEcrGetLogin (Some "520713654638") "us-west-2"].
Proof. vm_compute. done. Qed.

(** Unfolds the script and the plumbing of [sh]. *)
Ltac sh_unfold :=
  cbv beta iota zeta delta
    [BuildPublish.invoke BuildPublish.script BuildPublish.run_output_of
     BuildPublish.for_each BuildPublish.build_variant BuildPublish.run BuildPublish.exit
     mbind mret BuildPublish.sh_bind BuildPublish.sh_ret app].

(** Splits on the next test the script makes. *)
Ltac sh_case :=
  match goal with
  | |- context [if ?b then _ else _] =>
      lazymatch b with
      | context [if _ then _ else _] => fail
      | _ => destruct b eqn:?
      end
  end; sh_unfold.

(** Starts a proof about an invocation in which the identity is resolved. *)
Ltac sh_start Hid :=
  unfold BuildTrace.account_of, BuildTrace.region_of, BuildTrace.describe_reply;
  sh_unfold; rewrite Hid; change (negb (0 =? 0)) with false; sh_unfold.

(** X1. Past the identity test nothing stops the build script, whatever
    status its commands end with: as long as [aws ecr get-login] prints
    nothing or a [docker login] command line, the trace ends with the two
    rounds of the loop, gpu then cpu, each a message, a build, a tag of the
    image just built and a push of the name just tagged.  Before the loop
    no image is built, tagged or pushed; the two registry logins run there,
    and what a [$(...)] runs there is a [docker login]. *)
Theorem build_always_runs_both_rounds (w : BuildPublish.world) :
  BuildPublish.status
    (w [BuildPublish.Wget BuildPublish.dockerfile_url] BuildPublish.AwsStsGetCallerIdentity) = 0 →
  BuildTrace.prints_docker_login w →
  ∃ before,
    (BuildPublish.invoke w).2 =
      before ++ BuildTrace.round (BuildTrace.account_of w) (BuildTrace.region_of w) "gpu"
             ++ BuildTrace.round (BuildTrace.account_of w) (BuildTrace.region_of w) "cpu" ∧
    BuildTrace.image_steps before = [] ∧
    BuildTrace.logins before =
      [BuildPublish.AwsEcrGetLogin None (BuildTrace.region_of w);
       BuildPublish.AwsEcrGetLogin (Some "520713654638") (BuildTrace.region_of w)] ∧
    Forall BuildTrace.is_docker_login before.
Proof.
  intros Hid Hlogin. sh_start Hid. repeat sh_case.
  all: cbn [snd].
  all: lazymatch goal with
       | |- ∃ before, ?l = _ ∧ _ => exists (take (length l - 8) l)
       end.
  all: split_and!; [done | done | done |].
  all: cbn [length Nat.sub take].
  all: repeat (apply Forall_cons; split; [cbn [BuildTrace.is_docker_login] |]);
       try apply Forall_nil.
  all: try exact I.
  all: lazymatch goal with
       | |- Py.startswith (BuildPublish.stdout (_ ?tr (BuildPublish.AwsEcrGetLogin ?r ?g))) _
            = true =>
           destruct (Hlogin tr r g) as [He | Hs]; [exfalso | exact Hs]
       end.
  all: match goal with
       | Hq : String.eqb _ _ = false |- _ => rewrite He in Hq; discriminate Hq
       end.
Qed.

Lemma build_always_runs_both_rounds_witness :
  ∃ before,
    (BuildPublish.invoke BuildTrace.gpu_fails).2 =
      before ++ BuildTrace.round (BuildTrace.account_of BuildTrace.gpu_fails)
                  (BuildTrace.region_of BuildTrace.gpu_fails) "gpu"
             ++ BuildTrace.round (BuildTrace.account_of BuildTrace.gpu_fails)
                  (BuildTrace.region_of BuildTrace.gpu_fails) "cpu" ∧
    BuildTrace.image_steps before = [] ∧
    BuildTrace.logins before =
      [BuildPublish.AwsEcrGetLogin None (BuildTrace.region_of BuildTrace.gpu_fails);
       BuildPublish.AwsEcrGetLogin (Some "520713654638")
         (BuildTrace.region_of BuildTrace.gpu_fails)] ∧
    Forall BuildTrace.is_docker_login before.
Proof.
  apply (build_always_runs_both_rounds BuildTrace.gpu_fails).
  - reflexivity.
  - intros tr registry_ids region. right. reflexivity.
Defined.

(** X2. When the identity is resolved, the exit status of the build script
    is the status of its last command, the push of the cpu image: no
    failure before it, of a login, of a build or of the push of the gpu
    image, shows in the status of the cell. *)
Theorem build_status_is_last_push (w : BuildPublish.world) :
  BuildPublish.status
    (w [BuildPublish.Wget BuildPublish.dockerfile_url] BuildPublish.AwsStsGetCallerIdentity) = 0 →
  let tr := (BuildPublish.invoke w).2 in
  let push := BuildPublish.DockerPush
                (BuildPublish.FULLNAME (BuildTrace.account_of w) (BuildTrace.region_of w) "cpu") in
  last tr = Some push ∧
  (BuildPublish.invoke w).1 = BuildPublish.status (w (removelast tr) push).
Proof.
  intros Hid. sh_start Hid. repeat sh_case.
  all: by cbn [fst snd].
Qed.

Lemma build_status_is_last_push_witness :
  let tr := (BuildPublish.invoke BuildTrace.gpu_fails).2 in
  let push := BuildPublish.DockerPush
                (BuildPublish.FULLNAME (BuildTrace.account_of BuildTrace.gpu_fails)
                   (BuildTrace.region_of BuildTrace.gpu_fails) "cpu") in
  last tr = Some push ∧
  (BuildPublish.invoke BuildTrace.gpu_fails).1
  = BuildPublish.status (BuildTrace.gpu_fails (removelast tr) push).
Proof.
  apply (build_status_is_last_push BuildTrace.gpu_fails). reflexivity.
Defined.

(** X3. When the identity is resolved, the script creates the repository
    exactly when [aws ecr describe-repositories] fails, and then once. *)
Theorem build_creates_missing_repository (w : BuildPublish.world) :
  BuildPublish.status
    (w [BuildPublish.Wget BuildPublish.dockerfile_url] BuildPublish.AwsStsGetCallerIdentity) = 0 →
  BuildTrace.creations (BuildPublish.invoke w).2 =
    if BuildPublish.status (BuildTrace.describe_reply w) =? 0 then []
    else [BuildPublish.AwsEcrCreateRepository BuildPublish.IMAGE].
Proof.
  intros Hid. sh_start Hid.
  destruct (BuildPublish.status _ =? 0) eqn:Hd; sh_unfold; repeat sh_case.
  all: by cbn [snd].
Qed.

Lemma build_creates_missing_repository_witness :
  BuildTrace.creations (BuildPublish.invoke BuildTrace.fresh_account).2 =
    if BuildPublish.status (BuildTrace.describe_reply BuildTrace.fresh_account) =? 0 then []
    else [BuildPublish.AwsEcrCreateRepository BuildPublish.IMAGE].
Proof.
  apply (build_creates_missing_repository BuildTrace.fresh_account). reflexivity.
Defined.

(** * The dataset download *)

Example download_online :
  let r := Download.script Download.online Download.empty in
  r.1.1 = 0 ∧
  Download.files r.1.2 = {[ "data/shirts/metal/0001.jpg"; "data/shirts/sport/0001.jpg" ]}.
Proof. vm_compute. done. Qed.

Example download_offline :
  let r := Download.script Download.offline Download.empty in
  r.1.1 = 1 ∧ Download.files r.1.2 = ∅ ∧ Download.dirs r.1.2 = {[ "data/shirts" ]}.
Proof. vm_compute. done. Qed.

(** Splits on the tests of the download script, innermost first. *)
Ltac dl_cases :=
  repeat (match goal with
          | |- context [if ?b then _ else _] =>
              lazymatch b with
              | context [if _ then _ else _] => fail
              | _ => destruct b
              end
          end;
          cbv beta iota zeta; cbn [fst snd Download.dirs Download.files Z.eqb]).

Lemma download_keeps_directories (env : Download.Env) (l : Download.local) (d : string) :
  d ∈ Download.dirs l → d ∈ Download.dirs (Download.script env l).1.2.
Proof.
  intros Hd. unfold Download.script, Download.mkdir_p, Download.wget_q, Download.tar_zxf,
    Download.rm.
  dl_cases; set_unfold; intuition auto.
Qed.

Lemma download_makes_directory (env : Download.Env) (l : Download.local) :
  Download.mkdir_ok env = true →
  Download.directory ∈ Download.dirs (Download.script env l).1.2.
Proof.
  intros Hm. unfold Download.script, Download.test_no_dir, Download.mkdir_p,
    Download.wget_q, Download.tar_zxf, Download.rm. rewrite Hm.
  dl_cases; set_unfold; intuition auto.
Qed.

(** X4. The download cell is idempotent by presence of the directory
    alone: once an invocation has found [data/shirts] or made it, every
    later invocation runs the directory test and nothing else, leaves the
    files as they are and ends with status 0, whether or not the first one
    downloaded or unpacked anything. *)
Theorem download_skips_once_directory_exists (env env' : Download.Env) (l : Download.local) :
  Download.directory ∈ Download.dirs l ∨ Download.mkdir_ok env = true →
  let after := (Download.script env l).1.2 in
  Download.script env' after = (0, after, [Download.TestNoDir Download.directory]).
Proof.
  intros H after.
  assert (Download.directory ∈ Download.dirs after) as Hdir.
  { destruct H as [H | H].
    - by apply download_keeps_directories.
    - by apply download_makes_directory. }
  unfold Download.script, Download.test_no_dir.
  by destruct (decide (Download.directory ∈ Download.dirs after)).
Qed.

Lemma download_skips_once_directory_exists_witness :
  let after := (Download.script Download.offline Download.empty).1.2 in
  Download.script Download.online after = (0, after, [Download.TestNoDir Download.directory]).
Proof.
  apply (download_skips_once_directory_exists Download.offline Download.online Download.empty).
  right. reflexivity.
Defined.

Lemma archive_is_no_member (m : string) :
  Download.directory +:+ "/" +:+ m ≠ Download.archive ∧
  Download.directory +:+ "/" +:+ m ≠ Download.archive +:+ ".1".
Proof. split; discriminate. Qed.

Example download_damaged :
  let r := Download.script Download.damaged Download.empty in
  r.1.1 = 0 ∧ Download.files r.1.2 = {[ "data/shirts/metal/0001.jpg" ]}.
Proof. vm_compute. done. Qed.

(** X5. When [data/shirts] is absent the download cell runs its four
    commands whatever they answer, and its status is that of the final
    [rm]: it is 0 exactly when an archive file is there to remove, one
    left from before or one the download saved.  The status of [wget] and
    of [tar] does not show.  When the directory cannot be made, or when no
    archive is there to read, no file appears below the directory. *)
Theorem download_status_is_rm (env : Download.Env) (l : Download.local) :
  Download.directory ∉ Download.dirs l →
  let r := Download.script env l in
  r.2 = [Download.TestNoDir Download.directory; Download.MkdirP Download.directory;
         Download.WgetQ Download.url; Download.TarZxf Download.archive Download.directory;
         Download.Rm Download.archive] ∧
  (r.1.1 = 0 ↔ Download.archive ∈ Download.files l ∨ Download.wget_saves env = true) ∧
  (Download.mkdir_ok env = false
   ∨ ((Download.archive ∉ Download.files l) ∧ Download.wget_saves env = false) →
   ∀ m, Download.directory +:+ "/" +:+ m ∈ Download.files r.1.2 →
        Download.directory +:+ "/" +:+ m ∈ Download.files l).
Proof.
  intros Hdir r. subst r.
  unfold Download.script, Download.test_no_dir, Download.mkdir_p, Download.wget_q,
    Download.tar_zxf, Download.rm.
  destruct (decide (Download.directory ∈ Download.dirs l)) as [? | _]; [done |].
  change (0 =? 0) with true. cbv iota.
  destruct (Download.mkdir_ok env), (Download.wget_saves env), (Download.archive_ok env).
  all: dl_cases.
  all: split_and!; [done | | intros [? | [? ?]] m; try done;
                             destruct (archive_is_no_member m); set_unfold].
  all: try (split; [intros ?; try done | intros [? | ?]; try done]; set_unfold).
  all: try (intuition (subst; eauto; congruence)).
Qed.

Lemma download_status_is_rm_witness :
  let r := Download.script Download.offline Download.empty in
  r.2 = [Download.TestNoDir Download.directory; Download.MkdirP Download.directory;
         Download.WgetQ Download.url; Download.TarZxf Download.archive Download.directory;
         Download.Rm Download.archive] ∧
  (r.1.1 = 0 ↔ Download.archive ∈ Download.files Download.empty
               ∨ Download.wget_saves Download.offline = true) ∧
  (Download.mkdir_ok Download.offline = false
   ∨ ((Download.archive ∉ Download.files Download.empty)
      ∧ Download.wget_saves Download.offline = false) →
   ∀ m, Download.directory +:+ "/" +:+ m ∈ Download.files r.1.2 →
        Download.directory +:+ "/" +:+ m ∈ Download.files Download.empty).
Proof.
  apply (download_status_is_rm Download.offline Download.empty).
  vm_compute. set_solver.
Defined.

(** * [display_images] *)

Example display_two_images :
  Display.cell_17_markup "data/shirts/metal/7.jpg" "data/shirts/sport/3.jpg" =
  "<table style='width:60%'><tr><th>Metal</th><th>Sport</th></tr><tr><td><img src='data/shirts/metal/7.jpg' /></td><td><img src='data/shirts/sport/3.jpg' /></td></tr></table>".
Proof. reflexivity. Qed.

Example display_pixels :
  Display.display_images [] None (Display.Int 640) = "<table style='width:640px'><tr></tr></table>".
Proof. reflexivity. Qed.

Lemma append_empty_r (s : string) : s +:+ "" = s.
Proof.
  induction s as [|c s IH]; [done |].
  by rewrite append_cons, IH.
Qed.

Lemma join_empty_separator (l : list string) : Py.join "" l = Display.concat l.
Proof.
  induction l as [|x l IH]; [done |].
  destruct l as [|y l].
  - simpl. by rewrite append_empty_r.
  - rewrite join_cons by done. by rewrite IH.
Qed.

Lemma concat_app (l1 l2 : list string) :
  Display.concat (l1 ++ l2) = Display.concat l1 +:+ Display.concat l2.
Proof.
  induction l1 as [|x l1 IH]; [done |].
  simpl. by rewrite IH, append_assoc.
Qed.

Lemma foldl_snoc {A B} (f : A → B) (l : list A) :
  ∀ acc : list B, foldl (λ acc x, acc ++ [f x]) acc l = acc ++ (f <$> l).
Proof.
  induction l as [|x l IH]; intros acc; simpl.
  - by rewrite app_nil_r.
  - by rewrite IH, <- app_assoc.
Qed.

(** X6. The markup of [display_images] is the opening tag with the width
    (an integer width as that many pixels), the headings and a row break
    when a header is given (also when it is empty), one cell per image in
    the order of the list with the image text inserted as it is, and the
    closing tags.  The numbers of headings and of images are not
    compared. *)
Theorem display_images_markup (images : list string) (header : option (list string))
    (width : Display.width_arg) :
  Display.display_images images header width =
    "<table style='width:"
    +:+ match width with
        | Display.Int n => Display.format_int n +:+ "px"
        | Display.Str s => s
        end
    +:+ "'><tr>"
    +:+ match header with
        | Some header => Display.concat (Display.th <$> header) +:+ "</tr><tr>"
        | None => ""
        end
    +:+ Display.concat (Display.td <$> images)
    +:+ "</tr></table>".
Proof.
  unfold Display.display_images, Display.fragments. cbv zeta.
  rewrite join_empty_separator, foldl_snoc, !concat_app.
  destruct header as [header |].
  - rewrite !concat_app. cbn [Display.concat].
    by rewrite !append_empty_r, !append_assoc.
  - cbn [Display.concat]. by rewrite !append_empty_r, !append_assoc.
Qed.

(** * More of the runs of the notebook *)

Example leaked_endpoint :
  existsb Pipeline.is_deploy_completion
    (Notebook.log (Notebook.run_all Pipeline.prediction_fails ∅).2) = true ∧
  existsb Pipeline.is_delete_invocation
    (Notebook.log (Notebook.run_all Pipeline.prediction_fails ∅).2) = false.
Proof. vm_compute. done. Qed.

Lemma increasing_sorted (l : list nat) :
  Pipeline.increasing l = true → StronglySorted lt l.
Proof.
  intros H. apply Sorted_StronglySorted; [intros ???; lia |].
  induction l as [|a l IH]; [constructor |].
  destruct l as [|b l]; [by repeat constructor |].
  cbn [Pipeline.increasing] in H. apply andb_true_iff in H as [Hab H].
  constructor; [by apply IH |].
  constructor. by apply Nat.ltb_lt.
Qed.

(** X7. In every run the calls are invoked in the order of the notebook,
    from the credentials clean-up to the endpoint deletion: no call is
    made twice, none is retried, and none is made after a later one. *)
Theorem calls_follow_the_notebook (env : Notebook.Env) (store : S3.store) :
  StronglySorted lt
    (Pipeline.rank <$> Pipeline.invocations (Notebook.log (Notebook.run_all env store).2)).
Proof.
  apply increasing_sorted.
  nb_unfold. repeat nb_case. all: reflexivity.
Qed.

(** The log of every run is a sequence of blocking calls, each
    answered before the next is made.  A run that returns has no failed
    call; a run that raises ends with the failed call that raised, and
    raises what that call raised: the first failure ends the run. *)
Theorem first_failure_ends_the_run (env : Notebook.Env) (store : S3.store) :
  let r := Notebook.run_all env store in
  Pipeline.sequential (Notebook.log r.2) ∧
  match r.1 with
  | Notebook.Returned _ => existsb Pipeline.is_failure (Notebook.log r.2) = false
  | Notebook.Raised exn => ∃ c, last (Notebook.log r.2) = Some (Notebook.Failed c exn)
  end.
Proof.
  nb_unfold. repeat (nb_case; cbn [fst snd]).
  all: split; [repeat constructor | first [reflexivity | by eexists]].
Qed.

(** Turns the tests on exit statuses met on the way into equations. *)
Ltac status_facts :=
  repeat match goal with
         | H : (_ =? 0) = true |- _ => apply Z.eqb_eq in H
         | H : (_ =? 0) = false |- _ => apply Z.eqb_neq in H
         end.

(** X8. The endpoint is deleted only by the last cell, at the end of a
    run in which everything before it went well: wherever the deletion is
    invoked, the deployment has completed, the test image was fetched and
    opened, and the prediction returned.  So when [requests.get],
    [Image.open] or [predict] raises on a deployed endpoint, the run ends
    with the endpoint still deployed. *)
Theorem endpoint_deleted_only_after_prediction (env : Notebook.Env) (store : S3.store) :
  let l := Notebook.log (Notebook.run_all env store).2 in
  existsb Pipeline.is_delete_invocation l = true →
  existsb Pipeline.is_deploy_completion l = true ∧
  (∃ image, Notebook.on_requests_get env = Notebook.Returned image) ∧
  (∃ img, Notebook.on_image_open env = Notebook.Returned img) ∧
  (∃ response, Notebook.on_predict env = Notebook.Returned response).
Proof.
  nb_unfold. repeat nb_case.
  all: cbn [snd existsb Pipeline.is_deploy_completion Pipeline.is_delete_invocation orb].
  all: intros H; try discriminate H.
  all: split_and!; first [reflexivity | by eauto].
Qed.

Lemma endpoint_deleted_only_after_prediction_witness :
  let l := Notebook.log (Notebook.run_all Notebook.sunny ∅).2 in
  existsb Pipeline.is_deploy_completion l = true ∧
  (∃ image, Notebook.on_requests_get Notebook.sunny = Notebook.Returned image) ∧
  (∃ img, Notebook.on_image_open Notebook.sunny = Notebook.Returned img) ∧
  (∃ response, Notebook.on_predict Notebook.sunny = Notebook.Returned response).
Proof.
  apply (endpoint_deleted_only_after_prediction Notebook.sunny ∅).
  vm_compute. reflexivity.
Defined.

(** X9. A run returns only when every call the environment decides has
    returned and both bash cells have ended with status 0, and what it
    returns is the response of the prediction, as the endpoint gave it. *)
Theorem run_returns_the_prediction (env : Notebook.Env) (store : S3.store)
    (response : string) :
  (Notebook.run_all env store).1 = Notebook.Returned response →
  Pipeline.all_return env ∧ Notebook.on_predict env = Notebook.Returned response.
Proof.
  unfold Pipeline.all_return. nb_unfold. repeat (nb_case; cbn [fst snd]).
  all: status_facts.
  all: intros [= <-].
  all: split_and!; by eauto.
Qed.

Lemma run_returns_the_prediction_witness :
  Pipeline.all_return Notebook.sunny ∧
  Notebook.on_predict Notebook.sunny = Notebook.Returned "[0.1, 0.9]".
Proof.
  apply (run_returns_the_prediction Notebook.sunny ∅ "[0.1, 0.9]").
  vm_compute. reflexivity.
Defined.

(** X10. A training job is submitted only in a run whose two bash cells,
    the build and the download, ended with status 0. *)
Theorem training_needs_the_bash_cells (env : Notebook.Env) (store : S3.store)
    (estimator : Notebook.Estimator) (inputs job_name : string) :
  Notebook.Invoked (Notebook.Fit estimator inputs job_name)
    ∈ Notebook.log (Notebook.run_all env store).2 →
  (BuildPublish.invoke (Notebook.on_bash env)).1 = 0 ∧ Notebook.on_download env = 0.
Proof.
  nb_unfold. repeat nb_case.
  all: cbv [snd]; intros H; status_facts.
  all: in_log H.
  all: done.
Qed.

Lemma training_needs_the_bash_cells_witness :
  (BuildPublish.invoke (Notebook.on_bash Pipeline.gpu_image_missing)).1 = 0 ∧
  Notebook.on_download Pipeline.gpu_image_missing = 0.
Proof.
  apply (training_needs_the_bash_cells Pipeline.gpu_image_missing ∅ Notebook.sunny_estimator
           "s3://sagemaker-eu-west-1-123456789012/sagemaker/DEMO-shirts-classification"
           "fastai-shirts-2018-11-27-20-21-19-215").
  find_in_log.
Defined.

(** Finds an event with unknown arguments in an explicit log. *)
Ltac pick_in_log :=
  repeat first [apply list_elem_of_here | apply list_elem_of_further].

(** X11. The metrics are asked for the training job that was submitted
    and has completed, under the same job name, and the metric names asked
    for are the names of the metric definitions of its estimator, in
    another order. *)
Theorem metrics_query_matches_training (env : Notebook.Env) (store : S3.store)
    (job_name : string) (metric_names : list string) :
  Notebook.Invoked (Notebook.TrainingJobAnalytics job_name metric_names)
    ∈ Notebook.log (Notebook.run_all env store).2 →
  ∃ estimator inputs,
    Notebook.Completed (Notebook.Fit estimator inputs job_name)
      ∈ Notebook.log (Notebook.run_all env store).2 ∧
    metric_names ≡ₚ Notebook.Name <$> Notebook.metric_definitions estimator.
Proof.
  nb_unfold. repeat nb_case.
  all: cbv [snd]; intros H.
  all: in_log H.
  all: injection H as -> ->.
  all: eexists _, _; split; [pick_in_log | simpl; apply perm_swap].
Qed.

Lemma metrics_query_matches_training_witness :
  ∃ estimator inputs,
    Notebook.Completed
      (Notebook.Fit estimator inputs "fastai-shirts-2018-11-27-20-21-19-215")
      ∈ Notebook.log (Notebook.run_all Notebook.sunny ∅).2 ∧
    ["train:loss"; "valid:loss"; "valid:accuracy"]
      ≡ₚ Notebook.Name <$> Notebook.metric_definitions estimator.
Proof.
  apply (metrics_query_matches_training Notebook.sunny ∅).
  find_in_log.
Defined.

(** X12. Compilation is asked for the estimator whose training has
    completed, and its output path is derived from the output path that
    training left in that estimator. *)
Theorem compile_uses_the_training_output (env : Notebook.Env) (store : S3.store)
    (estimator : Notebook.Estimator) (family : string) (shape : list (string * list Z))
    (output_path framework version : string) :
  Notebook.Invoked
    (Notebook.CompileModel estimator family shape output_path framework version)
    ∈ Notebook.log (Notebook.run_all env store).2 →
  ∃ inputs job_name trained_output_path,
    Notebook.Completed (Notebook.Fit estimator inputs job_name)
      ∈ Notebook.log (Notebook.run_all env store).2 ∧
    Notebook.on_fit env = Notebook.Returned trained_output_path ∧
    output_path = Compile.output_path trained_output_path.
Proof.
  nb_unfold. repeat nb_case.
  all: cbv [snd]; intros H.
  all: in_log H.
  all: injection H as -> -> -> -> -> ->.
  all: eexists _, _, _; split_and!; [pick_in_log | reflexivity | reflexivity].
Qed.

Lemma compile_uses_the_training_output_witness :
  ∃ inputs job_name trained_output_path,
    Notebook.Completed (Notebook.Fit Notebook.sunny_estimator inputs job_name)
      ∈ Notebook.log (Notebook.run_all Notebook.sunny ∅).2 ∧
    Notebook.on_fit Notebook.sunny = Notebook.Returned trained_output_path ∧
    "s3://sagemaker-eu-west-1-123456789012" = Compile.output_path trained_output_path.
Proof.
  apply (compile_uses_the_training_output Notebook.sunny ∅ Notebook.sunny_estimator
           "ml_c5" [("actual_input_1", [1; 3; 224; 224])]
           "s3://sagemaker-eu-west-1-123456789012" "onnx" "1.3").
  find_in_log.
Defined.

(** * More of the compilation output path *)

Lemma split_nonempty (sep : ascii) (s : string) : Py.split sep s ≠ [].
Proof.
  destruct (split_snoc sep s) as (init & last & -> & _). by destruct init.
Qed.

Lemma join_split (sep : ascii) (s : string) :
  Py.join (String sep "") (Py.split sep s) = s.
Proof. destruct (split_snoc sep s) as (init & last & -> & _ & H). exact H. Qed.

Lemma split_no_separator (sep : ascii) (s : string) :
  Py.contains sep s = false → Py.split sep s = [s].
Proof.
  induction s as [|c s IH]; [done |]. simpl.
  intros [Hc Hs]%orb_false_iff. rewrite Hc, (IH Hs). done.
Qed.

Lemma split_last_segment (a seg : string) :
  Py.contains "/" seg = false →
  Py.split "/" (a +:+ "/" +:+ seg) = Py.split "/" a ++ [seg].
Proof.
  intros Hseg. induction a as [|c a IH].
  - rewrite append_empty_l.
    change (Py.split "/" ("/" +:+ seg)) with (EmptyString :: Py.split "/" seg).
    by rewrite (split_no_separator _ _ Hseg).
  - rewrite append_cons. cbn [Py.split]. rewrite IH.
    destruct (Ascii.eqb c "/"); [done |].
    pose proof (split_nonempty "/" a). by destruct (Py.split "/" a).
Qed.

(** X14. The compilation output path of [a/seg], for a last segment
    without '/', is [a].  The segment may be empty: a path that ends in
    '/', as the default output path of an estimator does, only loses that
    '/'; and a path whose only '/' is its first character gives the empty
    string. *)
Theorem output_path_of_child (a seg : string) :
  Py.contains "/" seg = false →
  Compile.output_path (a +:+ "/" +:+ seg) = a.
Proof.
  intros Hseg. unfold Compile.output_path.
  rewrite (split_last_segment a seg Hseg), slice_to_last_snoc.
  apply (join_split "/").
Qed.

Lemma output_path_of_child_witness :
  Compile.output_path ("s3://sagemaker-eu-west-1-123456789012" +:+ "/" +:+ "")
  = "s3://sagemaker-eu-west-1-123456789012".
Proof.
  apply (output_path_of_child "s3://sagemaker-eu-west-1-123456789012" "").
  reflexivity.
Defined.

Example output_path_of_root_child : Compile.output_path "/model.tar.gz" = "".
Proof. reflexivity. Qed.

(** * More of the metric rules *)

Section MetricRuleFacts.
Import Re.

Lemma substring_prefix (a b : string) :
  String.substring 0 (String.length a) (a +:+ b) = a.
Proof.
  induction a as [|c a IH].
  - simpl. by destruct b.
  - rewrite append_cons. simpl. by rewrite IH.
Qed.

Lemma consumed_token (a b : string) : consumed (a +:+ b) b = a.
Proof.
  unfold consumed. rewrite length_append.
  replace (String.length a + String.length b - String.length b)%nat
    with (String.length a) by lia.
  apply substring_prefix.
Qed.

(** Greedy iteration stops where a token ends. *)
Lemma star_token_end (fuel : nat) (rest : string) (g : groups)
    (k : string → groups → option groups) :
  MetricRules.token_end rest = true →
  star (exec (One NonSpace)) fuel rest g k = k rest g.
Proof.
  intros Hend. destruct rest as [|c rest].
  - by destruct fuel.
  - by apply star_stop.
Qed.

Lemma compile_rules (role image_name name key : string) :
  (name, key) ∈ MetricRules.keys →
  ∃ d, Metrics.rule (Notebook.cell_26 role image_name) name = Some d ∧
       Notebook.Name d = name ∧
       compile (Notebook.Regex d) = Some (lits MetricRules.head (MetricRules.tail key)).
Proof.
  unfold MetricRules.keys. rewrite !elem_of_cons, elem_of_nil.
  intros [[= -> ->] | [[= -> ->] | [[= -> ->] | []]]]; by eexists.
Qed.

(** A pattern that starts with '#' is not found in text without '#'. *)
Lemma search_without_hash (l : string) (r : regex) (line : string) :
  Py.contains "#" line = false → search (lits (String "#" l) r) line = None.
Proof.
  induction line as [|c line IH]; [done |].
  intros [Hc Hline]%orb_false_iff.
  cbn [search lits exec accepts]. rewrite Hc. by apply IH.
Qed.

Lemma rule_without_hash (key line : string) :
  Py.contains "#" line = false →
  search (lits MetricRules.head (MetricRules.tail key)) line = None.
Proof. apply search_without_hash. Qed.

(** The pattern of [key] on a line of the training log. *)
Lemma search_rule (key pre host epoch value rest : string) :
  Py.contains "#" pre = false →
  host ≠ EmptyString → epoch ≠ EmptyString → value ≠ EmptyString →
  no_space host = true → no_space epoch = true → no_space value = true →
  MetricRules.token_end rest = true →
  search (lits MetricRules.head (MetricRules.tail key))
    (pre +:+ MetricRules.quality_line host epoch key value +:+ rest)
  = Some {[ 1%nat := value ]}.
Proof.
  intros Hpre Hhost Hepoch Hvalue Hh He Hv Hrest.
  induction pre as [|c pre IH].
  - rewrite append_empty_l. apply search_here.
    unfold MetricRules.quality_line. rewrite !append_assoc.
    rewrite exec_lits. unfold MetricRules.tail. cbn [exec].
    apply plus_run; [done | done |].
    change (", epoch=" +:+ epoch +:+ ", " +:+ key +:+ "=" +:+ value +:+ rest)
      with (String "," (String " "
              ("epoch=" +:+ epoch +:+ ", " +:+ key +:+ "=" +:+ value +:+ rest))).
    cbn [String.length].
    rewrite star_one_more by reflexivity.
    rewrite star_stop by reflexivity.
    change (exec (lits ", epoch=" ?r) (String " " ?s) ∅ ?k) with (@None groups).
    cbv iota.
    change (String "," (String " "
              ("epoch=" +:+ epoch +:+ ", " +:+ key +:+ "=" +:+ value +:+ rest)))
      with (", epoch=" +:+ epoch +:+ ", " +:+ key +:+ "=" +:+ value +:+ rest).
    rewrite exec_lits. cbn [exec].
    apply plus_run; [done | done |].
    change (", " +:+ key +:+ "=" +:+ value +:+ rest)
      with (String "," (String " " (key +:+ "=" +:+ value +:+ rest))).
    cbn [String.length].
    rewrite star_one_more by reflexivity.
    rewrite star_stop by reflexivity.
    change (exec (lits (", " +:+ key +:+ "=") ?r) (String " " ?s) ∅ ?k) with (@None groups).
    cbv iota.
    change (String "," (String " " (key +:+ "=" +:+ value +:+ rest)))
      with (", " +:+ (key +:+ "=" +:+ value +:+ rest)).
    rewrite <- (append_assoc key "=" (value +:+ rest)).
    rewrite <- (append_assoc ", " (key +:+ "=") (value +:+ rest)).
    rewrite exec_lits. cbn [exec].
    apply plus_run; [done | done |].
    rewrite star_token_end by done.
    by rewrite consumed_token, insert_empty.
  - simpl in Hpre. apply orb_false_iff in Hpre as [Hc Hpre].
    rewrite append_cons.
    rewrite (search_skip "quality_metric: host=") by done.
    by apply IH.
Qed.

End MetricRuleFacts.

(** X15. Each of the three metric rules of the training job finds its own
    key: on a log line made of text free of '#', then
    #quality_metric: host=H, epoch=E, key=V for the key of the rule, with
    H, E and V not empty and free of white space, and V followed by the
    end of the line or by white space, the rule yields exactly one row,
    with the value V. *)
Theorem rules_extract_their_value
    (role image_name name key pre host epoch value rest : string) :
  (name, key) ∈ MetricRules.keys →
  Py.contains "#" pre = false →
  host ≠ EmptyString → epoch ≠ EmptyString → value ≠ EmptyString →
  Re.no_space host = true → Re.no_space epoch = true → Re.no_space value = true →
  MetricRules.token_end rest = true →
  Metrics.rows (Notebook.cell_26 role image_name) name
    (pre +:+ MetricRules.quality_line host epoch key value +:+ rest)
  = [(name, value)].
Proof.
  intros Hkey Hpre Hhost Hepoch Hvalue Hh He Hv Hrest.
  destruct (compile_rules role image_name name key Hkey) as (d & Hrule & Hname & Hcompile).
  unfold Metrics.rows. rewrite Hrule.
  unfold Metrics.extract. rewrite Hcompile, Hname.
  by rewrite search_rule.
Qed.

Lemma rules_extract_their_value_witness :
  Metrics.rows Notebook.sunny_estimator "train:loss"
    ("" +:+ MetricRules.quality_line "algo-1" "3" "train_loss" "0.4521" +:+ " [12s]")
  = [("train:loss", "0.4521")].
Proof.
  apply (rules_extract_their_value "arn:aws:iam::123456789012:role/SageMakerRole"
           (Notebook.cell_24 "123456789012" "eu-west-1" "sagemaker-fastai")
           "train:loss" "train_loss" "" "algo-1" "3" "0.4521" " [12s]");
    first [reflexivity | discriminate | idtac].
  apply list_elem_of_further, list_elem_of_here.
Defined.

(** X16. No rule of the training job, and no metric name, yields a row
    from a log line that has no '#': all three patterns start with
    #quality_metric, and a name without a rule has no pattern. *)
Theorem no_row_without_hash (role image_name name line : string) :
  Py.contains "#" line = false →
  Metrics.rows (Notebook.cell_26 role image_name) name line = [].
Proof.
  intros Hline. unfold Metrics.rows, Metrics.rule.
  cbn [Notebook.metric_definitions Notebook.cell_26 find Notebook.Name].
  repeat case_bool_decide; [.. | done].
  all: unfold Metrics.extract; cbn [Notebook.Regex].
  all: first
         [ change (Re.compile _)
             with (Some (Re.lits MetricRules.head (MetricRules.tail "valid_loss")))
         | change (Re.compile _)
             with (Some (Re.lits MetricRules.head (MetricRules.tail "train_loss")))
         | change (Re.compile _)
             with (Some (Re.lits MetricRules.head (MetricRules.tail "accuracy"))) ].
  all: cbv iota beta; by rewrite (rule_without_hash _ _ Hline).
Qed.

Lemma no_row_without_hash_witness :
  Metrics.rows Notebook.sunny_estimator "valid:accuracy" "epoch 5 accuracy=0.912" = [].
Proof.
  apply (no_row_without_hash "arn:aws:iam::123456789012:role/SageMakerRole"
           (Notebook.cell_24 "123456789012" "eu-west-1" "sagemaker-fastai")
           "valid:accuracy" "epoch 5 accuracy=0.912").
  reflexivity.
Defined.

(** * The build cell and the training job together *)

(** A build script that ends with status 0 has resolved the identity and
    has handed the name of the gpu image to [docker push]. *)
Lemma gpu_name_pushed_when_status_0 (w : BuildPublish.world) :
  (BuildPublish.invoke w).1 = 0 →
  BuildPublish.FULLNAME (BuildTrace.account_of w) (BuildTrace.region_of w) "gpu"
    ∈ BuildPublish.pushed (BuildPublish.invoke w).2.
Proof.
  unfold BuildTrace.account_of, BuildTrace.region_of. sh_unfold.
  destruct (BuildPublish.status _ =? 0) eqn:Hid; cbn [negb]; sh_unfold.
  - repeat sh_case.
    all: intros _; cbn [snd BuildPublish.pushed omap list_omap].
    all: apply list_elem_of_here.
  - discriminate.
Qed.

(** X17. When the notebook's account and region (from boto3) are those
    the build script worked with (from the aws command line, with its
    default region), the image a submitted training job names is one of
    the names the build cell handed to [docker push]. *)
Theorem training_image_was_pushed (env : Notebook.Env) (store : S3.store)
    (estimator : Notebook.Estimator) (inputs job_name : string) :
  Notebook.Invoked (Notebook.Fit estimator inputs job_name)
    ∈ Notebook.log (Notebook.run_all env store).2 →
  Notebook.on_caller_identity env
    = Notebook.Returned (BuildTrace.account_of (Notebook.on_bash env)) →
  Notebook.on_region_name env
    = Notebook.Returned (BuildTrace.region_of (Notebook.on_bash env)) →
  Notebook.image_name estimator
    ∈ BuildPublish.pushed (BuildPublish.invoke (Notebook.on_bash env)).2.
Proof.
  intros Hfit Haccount Hregion.
  assert ((BuildPublish.invoke (Notebook.on_bash env)).1 = 0) as Hstatus.
  { revert Hfit. clear. nb_unfold. repeat nb_case.
    all: cbv [snd]; intros H; status_facts.
    all: in_log H.
    all: done. }
  apply fit_invocation in Hfit as (? & ? & region & account & _ & _ & Hr & Ha & -> & _).
  rewrite Hr in Hregion. rewrite Ha in Haccount.
  injection Hregion as ->. injection Haccount as ->.
  by apply gpu_name_pushed_when_status_0.
Qed.

Lemma training_image_was_pushed_witness :
  Notebook.image_name Notebook.sunny_estimator
    ∈ BuildPublish.pushed (BuildPublish.invoke (Notebook.on_bash Notebook.sunny)).2.
Proof.
  apply (training_image_was_pushed Notebook.sunny ∅ Notebook.sunny_estimator
           "s3://sagemaker-eu-west-1-123456789012/sagemaker/DEMO-shirts-classification"
           "fastai-shirts-2018-11-27-20-21-19-215");
    [find_in_log | reflexivity | reflexivity].
Defined.
